(** * Logistic regression trained by mini-batch SGD with early stopping

    A shallow embedding of [code/logistic_sgd.py]: the class
    [LogisticRegression] (parameters [W] and [b], the symbolic expressions
    [p_y_given_x], [y_pred], [negative_log_likelihood], [errors]) and the
    driver [sgd_optimization_mnist] (the compiled functions [train_model],
    [validate_model], [test_model] and the early-stopping loop).

    Conventions of the embedding.
    - A Theano expression is embedded as the function it denotes; floating
      point numbers are read as the real numbers they approximate, so
      rounding, overflow and underflow are not modelled.  The two special
      values that the driver itself manufactures ([float('inf')] and the
      mean of an empty list) are kept, in the type [loss].
    - A numpy array of rank 2 is a list of rows, a label vector a list of
      Python integers ([Z]).  The two arrays of a split are parallel.
    - Python exceptions are values of [exception]; code that can raise
      returns a [result].
    - Python 2 integer [/] and [%] are [Z.div] and [Z.modulo] (both floor). *)

From Stdlib Require Import String.
From Stdlib Require Import Reals Lra Lia ZArith List Bool Arith.
From Stdlib Require Import ClassicalEpsilon.
Import ListNotations.

Local Open Scope R_scope.

(* ================================================================= *)
(** ** Python exceptions and the error monad *)

Inductive exception : Set :=
| TypeError
| NameError
| NotImplementedError
| ValueError
| IndexError.

Definition result (A : Type) : Type := (exception + A)%type.

Definition ret {A : Type} (a : A) : result A := inr a.

Definition raise {A : Type} (e : exception) : result A := inl e.

Definition bind {A B : Type} (m : result A) (k : A -> result B) : result B :=
  match m with
  | inl e => inl e
  | inr a => k a
  end.

Notation "x <- m ;; k" := (bind m (fun x => k))
  (at level 61, m at next level, right associativity).

(** A list comprehension whose element expression can raise. *)
Fixpoint mapM {A B : Type} (f : A -> result B) (l : list A) : result (list B) :=
  match l with
  | [] => ret []
  | a :: t => b <- f a ;; bs <- mapM f t ;; ret (b :: bs)
  end.

(* ================================================================= *)
(** ** numpy arrays *)

Module Numpy.

Definition vector : Type := list R.
Definition matrix : Type := list (list R).

(** [numpy.zeros((n,))] and [numpy.zeros((r, c))]. *)
Definition zeros (n : nat) : vector := repeat 0 n.
Definition zeros2 (r c : nat) : matrix := repeat (zeros c) r.

Definition Rsum (l : list R) : R := fold_right Rplus 0 l.

(** Entry [j] of a vector, entry [(j, k)] of a matrix (in range). *)
Definition vnth (v : vector) (j : nat) : R := nth j v 0.
Definition mnth (M : matrix) (j k : nat) : R := nth k (nth j M []) 0.

(** [xrange(n)] and [arange(n)]: 0, 1, ..., n-1; empty when [n <= 0]
    (the bound of an [xrange] is taken to fit a machine integer). *)
Definition xrange (n : Z) : list Z := map Z.of_nat (seq 0 (Z.to_nat n)).
Definition arange (n : nat) : list Z := map Z.of_nat (seq 0 n).

(** [a[start:stop]] for [0 <= start]: the elements at positions
    [start <= i < min stop (len a)]. *)
Definition slice {A : Type} (a : list A) (start stop : Z) : list A :=
  firstn (Z.to_nat (stop - start)) (skipn (Z.to_nat start) a).

(** Integer indexing: an index [i] is legal for length [n] when
    [-n <= i < n], a negative one counting from the end. *)
Definition index_ok (n : nat) (i : Z) : bool :=
  ((- Z.of_nat n <=? i) && (i <? Z.of_nat n))%Z.

Definition norm_index (n : nat) (i : Z) : nat :=
  Z.to_nat (if (i <? 0)%Z then i + Z.of_nat n else i)%Z.

(** [A[rows, cols]] with two index vectors: the vector of the
    [A[rows[i], cols[i]]]. *)
Definition take2 (A : matrix) (rows cols : list Z) : vector :=
  map (fun rc : Z * Z =>
         let row := nth (norm_index (length A) (fst rc)) A [] in
         nth (norm_index (length row) (snd rc)) row 0)
      (combine rows cols).

(** Row-major regrouping of a flat buffer into [r] rows of [c] entries. *)
Fixpoint chunks (c r : nat) (flat : list R) : matrix :=
  match r with
  | O => []
  | S r' => firstn c flat :: chunks c r' (skipn c flat)
  end.

(** [a.reshape((r, c))]: fails unless the number of entries is [r * c]. *)
Definition reshape (r c : nat) (a : matrix) : result matrix :=
  let flat := concat a in
  if (length flat =? r * c)%nat then ret (chunks c r flat)
  else raise ValueError.

(** [numpy.argmax] of a vector: the first position holding the maximum. *)
Fixpoint argmax_from (best : nat) (best_val : R) (i : nat) (l : list R) : nat :=
  match l with
  | [] => best
  | v :: t =>
      if Rlt_dec best_val v then argmax_from i v (S i) t
      else argmax_from best best_val (S i) t
  end.

Definition argmax (l : list R) : nat :=
  match l with
  | [] => O
  | v :: t => argmax_from O v 1%nat t
  end.

End Numpy.

(* ================================================================= *)
(** ** Theano tensor operations, as the functions they denote *)

Module T.
Import Numpy.

(** The type of a symbolic tensor variable. *)
Record TensorType : Set := { dtype : string; ndim : nat }.

Definition ivector : TensorType := {| dtype := "int32"; ndim := 1 |}.

(** [T.dot(X, W)] for [X] of shape [(n, d)] and [W] of shape [(d, k)]. *)
Definition dot (d k : nat) (X W : matrix) : matrix :=
  map (fun x =>
         map (fun c => Rsum (map (fun j => vnth x j * mnth W j c) (seq 0 d)))
             (seq 0 k))
      X.

(** [M + b]: the vector [b] is broadcast over the rows of [M]. *)
Definition add_row (M : matrix) (b : vector) : matrix :=
  map (fun row => map (fun c => vnth row c + vnth b c) (seq 0 (length row))) M.

Definition softmax_row (z : vector) : vector :=
  map (fun v => exp v / Rsum (map exp z)) z.

(** [T.nnet.softmax]: row-wise. *)
Definition softmax (M : matrix) : matrix := map softmax_row M.

Definition log (M : matrix) : matrix := map (map ln) M.

(** [T.argmax(M, axis=1)]. *)
Definition argmax_axis1 (M : matrix) : list Z :=
  map (fun row => Z.of_nat (argmax row)) M.

(** [T.mean] of a vector: the sum over the length.  On an empty vector
    Theano returns not-a-number, which [R] does not have; every batch of
    the driver has [batch_size] entries. *)
Definition mean (v : vector) : R := Rsum v / INR (length v).

(** [T.neq]: elementwise, 1 where the entries differ and 0 elsewhere. *)
Definition neq (a b : list Z) : vector :=
  map (fun p : Z * Z => if (fst p =? snd p)%Z then 0 else 1) (combine a b).

(** Entry [i] of a list replaced. *)
Fixpoint set_nth {A : Type} (l : list A) (i : nat) (a : A) : list A :=
  match l, i with
  | [], _ => []
  | _ :: t, O => a :: t
  | h :: t, S i' => h :: set_nth t i' a
  end.

Definition set_entry (M : matrix) (j k : nat) (w : R) : matrix :=
  set_nth M j (set_nth (nth j M []) k w).

(** The derivative of [f] at [x0] (when [f] is derivable there). *)
Definition derivative_at (f : R -> R) (x0 : R) : R :=
  epsilon (inhabits 0) (fun l => derivable_pt_lim f x0 l).

(** [T.grad(cost, wrt)]: the array, shaped like [wrt], of the partial
    derivatives of [cost] in the entries of [wrt]. *)
Definition grad_matrix (cost : matrix -> R) (wrt : matrix) : matrix :=
  map (fun j =>
         map (fun k => derivative_at (fun w => cost (set_entry wrt j k w))
                                     (mnth wrt j k))
             (seq 0 (length (nth j wrt []))))
      (seq 0 (length wrt)).

Definition grad_vector (cost : vector -> R) (wrt : vector) : vector :=
  map (fun k => derivative_at (fun w => cost (set_nth wrt k w)) (vnth wrt k))
      (seq 0 (length wrt)).

(** [A - c * G], elementwise. *)
Definition axpy_vector (a : vector) (c : R) (g : vector) : vector :=
  map (fun p : R * R => fst p - c * snd p) (combine a g).

Definition axpy_matrix (A : matrix) (c : R) (G : matrix) : matrix :=
  map (fun p : vector * vector => axpy_vector (fst p) c (snd p)) (combine A G).

End T.

(* ================================================================= *)
(** ** class LogisticRegression *)

Module LogisticRegression.
Import Numpy.

(** The two shared parameters, with the shape they were allocated with. *)
Record t : Type := {
  n_in : nat;
  n_out : nat;
  W : matrix;
  b : vector
}.

Definition with_W (self : t) (W' : matrix) : t :=
  {| n_in := n_in self; n_out := n_out self; W := W'; b := b self |}.

Definition with_b (self : t) (b' : vector) : t :=
  {| n_in := n_in self; n_out := n_out self; W := W self; b := b' |}.

(** [__init__]: [W] is [numpy.zeros((n_in, n_out))], [b] is
    [numpy.zeros((n_out,))]. *)
Definition init (n_in n_out : nat) : t :=
  {| n_in := n_in; n_out := n_out;
     W := zeros2 n_in n_out; b := zeros n_out |}.

(** [self.p_y_given_x = T.nnet.softmax(T.dot(input, self.W) + self.b)] *)
Definition p_y_given_x (self : t) (input : matrix) : matrix :=
  T.softmax (T.add_row (T.dot (n_in self) (n_out self) input (W self)) (b self)).

(** [self.y_pred = T.argmax(self.p_y_given_x, axis=1)] *)
Definition y_pred (self : t) (input : matrix) : list Z :=
  T.argmax_axis1 (p_y_given_x self input).

Definition y_pred_type : T.TensorType := {| T.dtype := "int64"; T.ndim := 1 |}.

(** [-T.mean(T.log(p_y_given_x)[T.arange(y.shape[0]), y])], as a function
    of the probability matrix. *)
Definition nll_of (p : matrix) (y : list Z) : R :=
  - T.mean (take2 (T.log p) (arange (length y)) y).

Definition negative_log_likelihood (self : t) (input : matrix) (y : list Z) : R :=
  nll_of (p_y_given_x self input) y.

(** A symbolic label variable: its type and the value it is given. *)
Record variable : Type := { type : T.TensorType; value : list Z }.

(** The names a reference inside [errors] can resolve to: the locals of
    the method, then the globals of the module ([target] is no builtin). *)
Definition errors_locals : list string := ["self"; "y"]%string.

Definition module_globals : list string :=
  ["__docformat__"; "time"; "cPickle"; "gzip"; "numpy"; "theano"; "T";
   "LogisticRegression"; "sgd_optimization_mnist"]%string.

Definition lookup (name : string) : result unit :=
  if existsb (String.eqb name) (errors_locals ++ module_globals)
  then ret tt else raise NameError.

(** [errors]: the arguments of [TypeError(...)] are evaluated before the
    exception is built, [target.type] among them. *)
Definition errors (self : t) (input : matrix) (y : variable) : result R :=
  if negb (T.ndim (type y) =? T.ndim y_pred_type)%nat then
    _ <- lookup "target" ;; raise TypeError
  else if String.prefix "int" (T.dtype (type y)) then
    ret (T.mean (T.neq (y_pred self input) (value y)))
  else raise NotImplementedError.

End LogisticRegression.

(* ================================================================= *)
(** ** sgd_optimization_mnist *)

Module SGD.
Import Numpy.
Module LR := LogisticRegression.

(** A value of the Python floats the loop compares: a real number,
    [float('inf')], or the not-a-number that [numpy.mean([])] returns. *)
Inductive loss : Type :=
| Num (r : R)
| Inf
| NaN.

(** [a < b] on such floats: every comparison with not-a-number is false. *)
Definition loss_lt (a b : loss) : bool :=
  match a, b with
  | Num x, Num y => if Rlt_dec x y then true else false
  | Num _, Inf => true
  | _, _ => false
  end.

(** [a * c] for a constant [0 < c]. *)
Definition loss_scale (a : loss) (c : R) : loss :=
  match a with
  | Num x => Num (x * c)
  | Inf => Inf
  | NaN => NaN
  end.

(** [numpy.mean] of a Python list of numbers. *)
Definition numpy_mean (l : list R) : loss :=
  match l with
  | [] => NaN
  | _ :: _ => Num (Rsum l / INR (length l))
  end.

(** The pickled file: three splits, each a pair of arrays. *)
Definition split : Type := (matrix * list Z)%type.

Record mnist : Type := {
  train_set : split;
  valid_set : split;
  test_set : split
}.

(** What a run reads from outside: the file and the processor clock,
    [clock n] being the value of the [n]-th call of [time.clock()]. *)
Record environment : Type := {
  mnist_pkl_gz : mnist;
  clock : nat -> R
}.

(** The Theano shared variables. *)
Record shared : Type := {
  classifier : LR.t;
  test_set_x : matrix;
  test_set_y : list Z;
  valid_set_x : matrix;
  valid_set_y : list Z;
  train_set_x : matrix;
  train_set_y : list Z
}.

Definition with_classifier (s : shared) (c : LR.t) : shared :=
  {| classifier := c;
     test_set_x := test_set_x s; test_set_y := test_set_y s;
     valid_set_x := valid_set_x s; valid_set_y := valid_set_y s;
     train_set_x := train_set_x s; train_set_y := train_set_y s |}.

Definition batch_size : Z := 500.

(** [shape[0] / batch_size] *)
Definition n_batches (set_x : matrix) : Z :=
  (Z.of_nat (length set_x) / batch_size)%Z.

(** The [givens] of the three compiled functions:
    [set[minibatch_offset:minibatch_offset+batch_size]]. *)
Definition minibatch {A : Type} (set : list A) (minibatch_offset : Z) : list A :=
  slice set minibatch_offset (minibatch_offset + batch_size).

(** The input of the classifier: [x.reshape((batch_size, 28*28))]. *)
Definition classifier_input (x : matrix) : result matrix :=
  reshape (Z.to_nat batch_size) (28 * 28) x.

(** [theano.function([minibatch_offset], classifier.errors(y), givens=...)]:
    the elementwise comparison fails at run time on vectors of different
    lengths. *)
Definition errors_function (set_x : matrix) (set_y : list Z)
    (minibatch_offset : Z) (c : LR.t) : result R :=
  input <- classifier_input (minibatch set_x minibatch_offset) ;;
  let y := minibatch set_y minibatch_offset in
  if (length (LR.y_pred c input) =? length y)%nat then
    LR.errors c input {| LR.type := T.ivector; LR.value := y |}
  else raise ValueError.

Definition test_model (minibatch_offset : Z) (s : shared) : result R :=
  errors_function (test_set_x s) (test_set_y s) minibatch_offset (classifier s).

Definition validate_model (minibatch_offset : Z) (s : shared) : result R :=
  errors_function (valid_set_x s) (valid_set_y s) minibatch_offset (classifier s).

(** [cost], [g_W], [g_b] and [updates], for the batch [(x, y)]. *)
Definition cost (c : LR.t) (x : matrix) (y : list Z) : R :=
  LR.negative_log_likelihood c x y.

Definition g_W (c : LR.t) (x : matrix) (y : list Z) : matrix :=
  T.grad_matrix (fun W' => cost (LR.with_W c W') x y) (LR.W c).

Definition g_b (c : LR.t) (x : matrix) (y : list Z) : vector :=
  T.grad_vector (fun b' => cost (LR.with_b c b') x y) (LR.b c).

Definition updates (learning_rate : R) (c : LR.t) (x : matrix) (y : list Z) : LR.t :=
  {| LR.n_in := LR.n_in c; LR.n_out := LR.n_out c;
     LR.W := T.axpy_matrix (LR.W c) learning_rate (g_W c x y);
     LR.b := T.axpy_vector (LR.b c) learning_rate (g_b c x y) |}.

(** [theano.function([minibatch_offset], cost, updates=updates, givens=...)]:
    the output and the new values are all computed from the old values,
    then the shared variables are overwritten.  Indexing the log
    probabilities with a label outside [-n_out, n_out) fails. *)
Definition train_model (learning_rate : R) (minibatch_offset : Z) (s : shared)
  : result (R * shared) :=
  x <- classifier_input (minibatch (train_set_x s) minibatch_offset) ;;
  let y := minibatch (train_set_y s) minibatch_offset in
  let c := classifier s in
  if forallb (index_ok (LR.n_out c)) y then
    ret (cost c x y, with_classifier s (updates learning_rate c x y))
  else raise IndexError.

(** The local variables of the loop that outlive an iteration. *)
Record loop_state : Type := {
  store : shared;
  patience : Z;
  best_validation_loss : loss;
  test_score : loss
}.

Definition patience_increase : Z := 2.
Definition improvement_threshold : R := 995 / 1000.

Section Loop.

Variable learning_rate : R.
Variable n_iter : Z.

(** Phase 1 of the body of the loop: the training step. *)
Definition train_phase (n_minibatches iter : Z) (st : loop_state)
  : result (R * loop_state) :=
  let minibatch_index := (iter mod n_minibatches)%Z in
  let minibatch_offset := (minibatch_index * batch_size)%Z in
  r <- train_model learning_rate minibatch_offset (store st) ;;
  ret (fst r,
       {| store := snd r; patience := patience st;
          best_validation_loss := best_validation_loss st;
          test_score := test_score st |}).

(** [if (iter+1) % validation_frequency == 0] *)
Definition validation_due (validation_frequency iter : Z) : bool :=
  ((iter + 1) mod validation_frequency =? 0)%Z.

(** [numpy.mean([validate_model(i*batch_size) for i in xrange(n_valid_batches)])] *)
Definition this_validation_loss (s : shared) : result loss :=
  let n_valid_batches := n_batches (valid_set_x s) in
  validation_losses <-
    mapM (fun i => validate_model (i * batch_size) s) (xrange n_valid_batches) ;;
  ret (numpy_mean validation_losses).

Definition this_test_score (s : shared) : result loss :=
  let n_test_batches := n_batches (test_set_x s) in
  test_losses <-
    mapM (fun i => test_model (i * batch_size) s) (xrange n_test_batches) ;;
  ret (numpy_mean test_losses).

(** The new patience, once the validation loss [this] is below the best. *)
Definition improved_patience (iter : Z) (this : loss) (st : loop_state) : Z :=
  if loss_lt this (loss_scale (best_validation_loss st) improvement_threshold)
  then Z.max (patience st) (iter * patience_increase)
  else patience st.

(** Phase 2: the validation check. *)
Definition validation_phase (validation_frequency iter : Z) (st : loop_state)
  : result loop_state :=
  if validation_due validation_frequency iter then
    this <- this_validation_loss (store st) ;;
    if loss_lt this (best_validation_loss st) then
      let patience' := improved_patience iter this st in
      score <- this_test_score (store st) ;;
      ret {| store := store st; patience := patience';
             best_validation_loss := this; test_score := score |}
    else ret st
  else ret st.

(** One pass through the body of the [for], up to the test for [break]. *)
Definition iteration (n_minibatches iter : Z) (st : loop_state) : result loop_state :=
  let validation_frequency := n_minibatches in
  r <- train_phase n_minibatches iter st ;;
  validation_phase validation_frequency iter (snd r).

(** [for iter in iters: ...; if patience <= iter: break] *)
Fixpoint for_loop (n_minibatches : Z) (iters : list Z) (st : loop_state)
  : result loop_state :=
  match iters with
  | [] => ret st
  | iter :: rest =>
      st' <- iteration n_minibatches iter st ;;
      if (patience st' <=? iter)%Z then ret st'
      else for_loop n_minibatches rest st'
  end.

(** [shared_dataset]: the labels are stored as floats and read back
    through a cast to [int32], the identity on class labels. *)
Definition shared_dataset (data_xy : split) : matrix * list Z :=
  (fst data_xy, snd data_xy).

Definition initial_store (data : mnist) : shared :=
  {| classifier := LR.init (28 * 28) 10;
     test_set_x := fst (shared_dataset (test_set data));
     test_set_y := snd (shared_dataset (test_set data));
     valid_set_x := fst (shared_dataset (valid_set data));
     valid_set_y := snd (shared_dataset (valid_set data));
     train_set_x := fst (shared_dataset (train_set data));
     train_set_y := snd (shared_dataset (train_set data)) |}.

Definition initial_state (data : mnist) : loop_state :=
  {| store := initial_store data;
     patience := 5000;
     best_validation_loss := Inf;
     test_score := Num 0 |}.

(** What the run reports at the end. *)
Record report : Type := {
  final : loop_state;
  minutes : R
}.

Definition sgd_optimization_mnist (env : environment) : result report :=
  let data := mnist_pkl_gz env in
  let n_minibatches := n_batches (train_set_x (initial_store data)) in
  let start_time := clock env 0 in
  st <- for_loop n_minibatches (xrange (n_iter * n_minibatches))
                 (initial_state data) ;;
  let end_time := clock env 1 in
  ret {| final := st; minutes := (end_time - start_time) / 60 |}.

End Loop.

End SGD.

(* ================================================================= *)
(** ** Vocabulary of the specification *)

Module Spec.
Import Numpy.
Module LR := LogisticRegression.

(** The score of class [k] for example [i]: entry [(i, k)] of
    [input . W + b]. *)
Definition logit (self : LR.t) (input : matrix) (i k : nat) : R :=
  Rsum (map (fun j => mnth input i j * mnth (LR.W self) j k)
            (seq 0 (LR.n_in self)))
  + vnth (LR.b self) k.



(** A label variable of rank 2 (a [T.imatrix]). *)
Definition matrix_labels (y : list Z) : LR.variable :=
  {| LR.type := {| T.dtype := "int32"; T.ndim := 2 |}; LR.value := y |}.

(** Entry [(i, k)] of the one-hot encoding of the labels [y]. *)
Definition one_hot (y : list Z) (i k : nat) : R :=
  if (nth i y 0 =? Z.of_nat k)%Z then 1 else 0.

(** The closed forms of the gradient of the mean negative log-likelihood:
    [X^T (P - Y_onehot) / batch_size] and the column mean of
    [P - Y_onehot], the batch being the rows that [y] labels. *)
Definition closed_form_g_W (c : LR.t) (x : matrix) (y : list Z) : matrix :=
  let P := LR.p_y_given_x c x in
  map (fun j =>
         map (fun k =>
                Rsum (map (fun i => mnth x i j * (mnth P i k - one_hot y i k))
                          (seq 0 (length y)))
                / INR (length y))
             (seq 0 (LR.n_out c)))
      (seq 0 (LR.n_in c)).

Definition closed_form_g_b (c : LR.t) (x : matrix) (y : list Z) : vector :=
  let P := LR.p_y_given_x c x in
  map (fun k =>
         Rsum (map (fun i => mnth P i k - one_hot y i k) (seq 0 (length y)))
         / INR (length y))
      (seq 0 (LR.n_out c)).

(** The scores after one entry of a parameter has moved from [v0] to
    [w]: only the scores of class [k0] move, that of example [i] by
    [s i * (w - v0)]. *)
Definition moved_logit (A : nat -> nat -> R) (s : nat -> R) (k0 : nat)
    (v0 w : R) (i k : nat) : R :=
  A i k + (if (k =? k0)%nat then s i * (w - v0) else 0).

(** The mean negative log-likelihood, as a function of that entry. *)
Definition moved_cost (K : nat) (y : list Z) (A : nat -> nat -> R)
    (s : nat -> R) (k0 : nat) (v0 w : R) : R :=
  Rsum (map (fun i =>
               - ln (exp (moved_logit A s k0 v0 w i (Z.to_nat (nth i y 0%Z)))
                     / Rsum (map (fun c => exp (moved_logit A s k0 v0 w i c))
                                 (seq 0 K))))
            (seq 0 (length y)))
  / INR (length y).

(** The parameters have the shape they were allocated with. *)
Definition well_shaped (c : LR.t) : Prop :=
  length (LR.W c) = LR.n_in c
  /\ (forall row, In row (LR.W c) -> length row = LR.n_out c)
  /\ length (LR.b c) = LR.n_out c.

(** The body of the loop executed for the iterations [iters] in turn,
    with no test for [break]. *)
Fixpoint run_iterations (learning_rate : R) (n_minibatches : Z)
    (iters : list Z) (st : SGD.loop_state) : result SGD.loop_state :=
  match iters with
  | [] => ret st
  | iter :: rest =>
      st' <- SGD.iteration learning_rate n_minibatches iter st ;;
      run_iterations learning_rate n_minibatches rest st'
  end.

(** Iteration [iter] runs a validation check, on the store [s] that its
    training step left, whose loss is strictly below
    [best * improvement_threshold]. *)
Definition significant_improvement (n_minibatches iter : Z) (s : SGD.shared)
    (best : SGD.loss) : Prop :=
  SGD.validation_due n_minibatches iter = true
  /\ exists this,
       SGD.this_validation_loss s = ret this
       /\ SGD.loss_lt this (SGD.loss_scale best SGD.improvement_threshold) = true.

(** The best validation loss kept by the loop is never negative. *)
Definition best_ok (st : SGD.loop_state) : Prop :=
  match SGD.best_validation_loss st with
  | SGD.Num r => 0 <= r
  | SGD.Inf => True
  | SGD.NaN => True
  end.

(** The datasets of a store, which no compiled function may touch. *)
Definition same_datasets (s s' : SGD.shared) : Prop :=
  SGD.train_set_x s' = SGD.train_set_x s
  /\ SGD.train_set_y s' = SGD.train_set_y s
  /\ SGD.valid_set_x s' = SGD.valid_set_x s
  /\ SGD.valid_set_y s' = SGD.valid_set_y s
  /\ SGD.test_set_x s' = SGD.test_set_x s
  /\ SGD.test_set_y s' = SGD.test_set_y s.

(** A split of exactly one batch of 28 x 28 images with its labels. *)
Definition one_batch (set_x : matrix) (set_y : list Z) : Prop :=
  length set_x = 500%nat
  /\ (forall row, In row set_x -> length row = 784%nat)
  /\ length set_y = 500%nat.

(** A one-batch dataset: 500 black images, all labelled 0, in each split. *)
Definition black_split : SGD.split :=
  (repeat (repeat 0 (28 * 28)) 500, repeat 0%Z 500).

Definition black_mnist : SGD.mnist :=
  {| SGD.train_set := black_split;
     SGD.valid_set := black_split;
     SGD.test_set := black_split |}.

Definition black_env (clock : nat -> R) : SGD.environment :=
  {| SGD.mnist_pkl_gz := black_mnist; SGD.clock := clock |}.


(** The slice of [set_x] at [minibatch_offset] holds the
    [batch_size * 28 * 28] entries that the [reshape] asks for. *)
Definition batch_fits (set_x : matrix) (minibatch_offset : Z) : Prop :=
  length (concat (SGD.minibatch set_x minibatch_offset)) = (500 * 784)%nat.

(** The slice of labels has [batch_size] entries. *)
Definition labels_fit (set_y : list Z) (minibatch_offset : Z) : Prop :=
  length (SGD.minibatch set_y minibatch_offset) = 500%nat.

(** A split as the pickled file holds it: images of 28 x 28 pixels and
    one label for each image. *)
Definition well_formed_split (s : SGD.split) : Prop :=
  (forall row, In row (fst s) -> length row = 784%nat)
  /\ length (snd s) = length (fst s).

(** Three such splits, the training labels being legal indices of the
    ten classes. *)
Definition well_formed_mnist (data : SGD.mnist) : Prop :=
  well_formed_split (SGD.train_set data)
  /\ well_formed_split (SGD.valid_set data)
  /\ well_formed_split (SGD.test_set data)
  /\ forall l, In l (snd (SGD.train_set data)) -> (-10 <= l < 10)%Z.

(** Three such splits, the training labels being the classes
    0, ..., 9. *)
Definition mnist_with_class_labels (data : SGD.mnist) : Prop :=
  well_formed_split (SGD.train_set data)
  /\ well_formed_split (SGD.valid_set data)
  /\ well_formed_split (SGD.test_set data)
  /\ forall l, In l (snd (SGD.train_set data)) -> (0 <= l < 10)%Z.

(** The training labels are the classes 0, ..., 9. *)
Definition labels_are_classes (data : SGD.mnist) : Prop :=
  forall l, In l (snd (SGD.train_set data)) -> (0 <= l < 10)%Z.

(** What every state of a run keeps: the dataset arrays it started with
    and a classifier of 28 * 28 inputs and 10 outputs with parameters of
    that shape. *)
Definition carries (data : SGD.mnist) (st : SGD.loop_state) : Prop :=
  same_datasets (SGD.initial_store data) (SGD.store st)
  /\ LR.n_in (SGD.classifier (SGD.store st)) = 784%nat
  /\ LR.n_out (SGD.classifier (SGD.store st)) = 10%nat
  /\ well_shaped (SGD.classifier (SGD.store st)).

(** The biases sum to zero, and so does every row of the weights. *)
Definition zero_sums (c : LR.t) : Prop :=
  Rsum (LR.b c) = 0 /\ forall row, In row (LR.W c) -> Rsum row = 0.

(** A best validation loss is [inf] or a fraction in [0, 1]. *)
Definition best_in_range (best : SGD.loss) : Prop :=
  match best with
  | SGD.Num r => 0 <= r <= 1
  | SGD.Inf => True
  | SGD.NaN => False
  end.

(** [a <= b] on losses, as far as the loop can tell them apart. *)
Definition loss_le (a b : SGD.loss) : Prop :=
  a = b \/ SGD.loss_lt a b = true.

(** The best validation loss is in range, and as long as none was
    accepted the other two counters are the initial ones. *)
Definition untouched_while_inf (st : SGD.loop_state) : Prop :=
  best_in_range (SGD.best_validation_loss st)
  /\ (SGD.best_validation_loss st = SGD.Inf ->
      SGD.test_score st = SGD.Num 0 /\ SGD.patience st = 5000%Z).

(** The report of a run that executed no iteration. *)
Definition idle_report (env : SGD.environment) : SGD.report :=
  {| SGD.final := SGD.initial_state (SGD.mnist_pkl_gz env);
     SGD.minutes := (SGD.clock env 1 - SGD.clock env 0) / 60 |}.

(** The one-batch dataset with no validation example. *)
Definition unvalidated_mnist : SGD.mnist :=
  {| SGD.train_set := black_split;
     SGD.valid_set := ([], []);
     SGD.test_set := black_split |}.

(** 500 training images of a single pixel. *)
Definition one_pixel_mnist : SGD.mnist :=
  {| SGD.train_set := (repeat [0] 500, repeat 0%Z 500);
     SGD.valid_set := ([], []);
     SGD.test_set := ([], []) |}.

End Spec.

(* ================================================================= *)
(** * Properties *)

(** ** Sums, means and indexing *)

Module NumpyFacts.
Import Numpy.

Lemma bind_ret {A B : Type} (a : A) (k : A -> result B) : bind (ret a) k = k a.
Proof. reflexivity. Qed.

Lemma ret_inj {A : Type} (a a' : A) : ret a = ret a' -> a = a'.
Proof. intros H. now injection H. Qed.

Lemma bind_inv {A B : Type} (m : result A) (k : A -> result B) (b : B) :
  bind m k = ret b -> exists a, m = ret a /\ k a = ret b.
Proof.
  destruct m as [e|a]; simpl; intros H; [discriminate|].
  exists a. split; [reflexivity|exact H].
Qed.

Lemma Rsum_app (l1 l2 : list R) : Rsum (l1 ++ l2) = Rsum l1 + Rsum l2.
Proof.
  induction l1 as [|a l1 IH]; simpl.
  - lra.
  - unfold Rsum in *; simpl. rewrite IH. lra.
Qed.

Lemma Rsum_map_scal {A : Type} (f : A -> R) (c : R) (l : list A) :
  Rsum (map (fun a => f a * c) l) = Rsum (map f l) * c.
Proof.
  induction l as [|a l IH]; unfold Rsum in *; simpl.
  - lra.
  - rewrite IH. lra.
Qed.

Lemma Rsum_map_opp {A : Type} (f : A -> R) (l : list A) :
  Rsum (map (fun a => - f a) l) = - Rsum (map f l).
Proof.
  induction l as [|a l IH]; unfold Rsum in *; simpl.
  - lra.
  - rewrite IH. lra.
Qed.

Lemma Rsum_map_plus {A : Type} (f g : A -> R) (l : list A) :
  Rsum (map (fun a => f a + g a) l) = Rsum (map f l) + Rsum (map g l).
Proof.
  induction l as [|a l IH]; unfold Rsum in *; simpl.
  - lra.
  - rewrite IH. lra.
Qed.

Lemma Rsum_map_ext {A : Type} (f g : A -> R) (l : list A) :
  (forall a, In a l -> f a = g a) -> Rsum (map f l) = Rsum (map g l).
Proof.
  intros H. f_equal. apply map_ext_in. exact H.
Qed.

(** A sum whose only non-zero term is the one of index [k0]. *)
Lemma Rsum_indicator (v : R) (k0 a n : nat) :
  (a <= k0 < a + n)%nat ->
  Rsum (map (fun c => if (c =? k0)%nat then v else 0) (seq a n)) = v.
Proof.
  revert a. induction n as [|n IH]; intros a H; [lia|].
  cbn [seq map]. unfold Rsum in *. cbn [fold_right].
  destruct (Nat.eqb_spec a k0) as [->|Hne].
  - assert (E : fold_right Rplus 0
                  (map (fun c => if (c =? k0)%nat then v else 0) (seq (S k0) n))
                = 0).
    { clear. generalize (Nat.le_refl (S k0)). generalize (S k0) at 2 3.
      intros b Hb. revert b Hb. induction n as [|n IH]; intros b Hb; simpl.
      - reflexivity.
      - destruct (Nat.eqb_spec b k0); [lia|]. rewrite IH by lia. lra. }
    rewrite E. lra.
  - rewrite IH by lia. lra.
Qed.

Lemma Rsum_nonneg (l : list R) : (forall v, In v l -> 0 <= v) -> 0 <= Rsum l.
Proof.
  induction l as [|a l IH]; unfold Rsum in *; simpl; intros H.
  - lra.
  - assert (0 <= a) by (apply H; now left).
    assert (0 <= fold_right Rplus 0 l) by (apply IH; intros; apply H; now right).
    lra.
Qed.

Lemma Rsum_pos (l : list R) :
  l <> [] -> (forall v, In v l -> 0 < v) -> 0 < Rsum l.
Proof.
  destruct l as [|a l]; [congruence|]. intros _ H.
  assert (0 < a) by (apply H; now left).
  assert (0 <= Rsum l).
  { apply Rsum_nonneg. intros v Hv. left. apply H. now right. }
  unfold Rsum in *; simpl. lra.
Qed.

Lemma Rsum_le_length (l : list R) :
  (forall v, In v l -> v <= 1) -> Rsum l <= INR (length l).
Proof.
  induction l as [|a l IH]; intros H.
  - simpl. unfold Rsum; simpl. lra.
  - change (length (a :: l)) with (S (length l)). rewrite S_INR.
    assert (a <= 1) by (apply H; now left).
    assert (Rsum l <= INR (length l)) by (apply IH; intros; apply H; now right).
    unfold Rsum in *; simpl. lra.
Qed.


Lemma combine_arange (y : list Z) (a : nat) :
  combine (map Z.of_nat (seq a (length y))) y
  = map (fun i => (Z.of_nat i, nth (i - a) y 0%Z)) (seq a (length y)).
Proof.
  revert a. induction y as [|v y IH]; intros a; simpl.
  - reflexivity.
  - rewrite Nat.sub_diag. f_equal. rewrite IH.
    apply map_ext_in. intros i Hi. apply in_seq in Hi.
    replace (i - a)%nat with (S (i - S a)) by lia. reflexivity.
Qed.

Lemma norm_index_nonneg (n : nat) (i : nat) :
  norm_index n (Z.of_nat i) = i.
Proof.
  unfold norm_index.
  destruct (Z.ltb_spec (Z.of_nat i) 0); [lia|]. apply Nat2Z.id.
Qed.

Lemma norm_index_in_range (n : nat) (i : Z) :
  (0 <= i)%Z -> norm_index n i = Z.to_nat i.
Proof.
  intros H. unfold norm_index.
  destruct (Z.ltb_spec i 0); [lia|]. reflexivity.
Qed.

(** The flat slices visited by [n] consecutive batches of [size] entries
    tile the first [n * size] entries. *)
Lemma concat_slices {A : Type} (a : list A) (size n : nat) :
  (n * size <= length a)%nat ->
  concat (map (fun i => firstn size (skipn (i * size) a)) (seq 0 n))
  = firstn (n * size) a.
Proof.
  induction n as [|n IH]; intros Hn.
  - reflexivity.
  - rewrite seq_S, map_app, concat_app. simpl.
    rewrite IH by lia. rewrite app_nil_r.
    replace (size + n * size)%nat with (n * size + size)%nat by lia.
    rewrite <- (firstn_skipn (n * size) (firstn (n * size + size) a)).
    f_equal.
    + rewrite firstn_firstn. f_equal. lia.
    + rewrite skipn_firstn_comm. f_equal. lia.
Qed.

End NumpyFacts.

(** ** The classifier and its loss *)

Module ClassifierFacts.
Import Numpy NumpyFacts Spec.

Lemma nth_map_in {A B : Type} (f : A -> B) (l : list A) (i : nat) (d : B) (d' : A) :
  (i < length l)%nat -> nth i (map f l) d = f (nth i l d').
Proof.
  intros H. rewrite (nth_indep _ d (f d')) by (now rewrite length_map).
  apply map_nth.
Qed.

Lemma softmax_row_length (z : vector) : length (T.softmax_row z) = length z.
Proof. unfold T.softmax_row. apply length_map. Qed.

Lemma exp_sum_pos (z : vector) : z <> [] -> 0 < Rsum (map exp z).
Proof.
  intros Hz. apply Rsum_pos.
  - destruct z; simpl; congruence.
  - intros v Hv. apply in_map_iff in Hv. destruct Hv as [x [<- _]]. apply exp_pos.
Qed.

Lemma softmax_row_sum (z : vector) : z <> [] -> Rsum (T.softmax_row z) = 1.
Proof.
  intros Hz. unfold T.softmax_row.
  pose proof (exp_sum_pos z Hz) as Hs.
  unfold Rdiv. rewrite (Rsum_map_scal exp (/ Rsum (map exp z)) z).
  apply Rinv_r. lra.
Qed.

Lemma softmax_row_nth (z : vector) (k : nat) :
  (k < length z)%nat ->
  vnth (T.softmax_row z) k = exp (vnth z k) / Rsum (map exp z).
Proof.
  intros Hk. unfold vnth, T.softmax_row.
  now rewrite (nth_map_in _ z k 0 0 Hk).
Qed.

Lemma softmax_row_pos (z : vector) (v : R) : In v (T.softmax_row z) -> 0 < v.
Proof.
  intros Hv. unfold T.softmax_row in Hv. apply in_map_iff in Hv.
  destruct Hv as [x [<- Hx]].
  apply Rdiv_lt_0_compat; [apply exp_pos|].
  apply exp_sum_pos. destruct z; [contradiction|congruence].
Qed.


(** Row [i] of the probability matrix is the softmax of the scores of
    example [i]. *)
Lemma p_y_given_x_row (self : LR.t) (input : matrix) (i : nat) :
  (i < length input)%nat ->
  nth i (LR.p_y_given_x self input) []
  = T.softmax_row (map (logit self input i) (seq 0 (LR.n_out self))).
Proof.
  intros Hi. unfold LR.p_y_given_x, T.softmax, T.add_row, T.dot.
  rewrite !map_map.
  rewrite (@nth_map_in vector vector _ input i [] [] Hi).
  rewrite length_map, length_seq. f_equal.
  apply map_ext_in. intros k Hk. apply in_seq in Hk.
  unfold logit. f_equal.
  unfold vnth at 1.
  rewrite (nth_map_in _ (seq 0 (LR.n_out self)) k 0 O)
    by (rewrite length_seq; lia).
  rewrite seq_nth by lia. reflexivity.
Qed.

Lemma p_y_given_x_length (self : LR.t) (input : matrix) :
  length (LR.p_y_given_x self input) = length input.
Proof.
  unfold LR.p_y_given_x, T.softmax, T.add_row, T.dot.
  now rewrite !length_map.
Qed.

Lemma p_y_given_x_row_length (self : LR.t) (input : matrix) (i : nat) :
  (i < length input)%nat ->
  length (nth i (LR.p_y_given_x self input) []) = LR.n_out self.
Proof.
  intros Hi. rewrite p_y_given_x_row by exact Hi.
  now rewrite softmax_row_length, length_map, length_seq.
Qed.

Lemma p_y_given_x_in_row (self : LR.t) (input : matrix) (row : vector) :
  In row (LR.p_y_given_x self input) ->
  exists i, (i < length input)%nat /\
    row = T.softmax_row (map (logit self input i) (seq 0 (LR.n_out self))).
Proof.
  intros Hrow. destruct (In_nth _ _ [] Hrow) as [i [Hi Hnth]].
  rewrite p_y_given_x_length in Hi. exists i. split; [exact Hi|].
  rewrite <- Hnth. now apply p_y_given_x_row.
Qed.

Lemma p_y_given_x_entry (self : LR.t) (input : matrix) (i k : nat) :
  (i < length input)%nat -> (k < LR.n_out self)%nat ->
  mnth (LR.p_y_given_x self input) i k
  = exp (logit self input i k)
    / Rsum (map (fun c => exp (logit self input i c)) (seq 0 (LR.n_out self))).
Proof.
  intros Hi Hk. unfold mnth. rewrite p_y_given_x_row by exact Hi.
  fold (vnth (T.softmax_row (map (logit self input i) (seq 0 (LR.n_out self)))) k).
  rewrite softmax_row_nth by (rewrite length_map, length_seq; lia).
  rewrite map_map. f_equal. f_equal. unfold vnth.
  rewrite (nth_map_in _ (seq 0 (LR.n_out self)) k 0 O)
    by (rewrite length_seq; lia).
  now rewrite seq_nth by lia.
Qed.

Lemma p_y_given_x_pos (self : LR.t) (input : matrix) (row : vector) (v : R) :
  In row (LR.p_y_given_x self input) -> In v row -> 0 < v.
Proof.
  intros Hrow Hv. destruct (p_y_given_x_in_row _ _ _ Hrow) as [i [_ ->]].
  now apply softmax_row_pos in Hv.
Qed.

End ClassifierFacts.

Module ClassifierTheorems.
Import Numpy NumpyFacts Spec ClassifierFacts.





(** The running maximum kept by [argmax_from]: after scanning the prefix
    [pre], [best] is the first position of the maximum of [pre]. *)
Lemma argmax_from_spec (t pre : list R) (best : nat) :
  (best < length pre)%nat ->
  (forall j, (j < length pre)%nat -> nth j pre 0 <= nth best pre 0) ->
  (forall j, (j < best)%nat -> nth j pre 0 < nth best pre 0) ->
  let l := pre ++ t in
  let r := argmax_from best (nth best pre 0) (length pre) t in
  (r < length l)%nat
  /\ (forall j, (j < length l)%nat -> nth j l 0 <= nth r l 0)
  /\ (forall j, (j < r)%nat -> nth j l 0 < nth r l 0).
Proof.
  revert pre best. induction t as [|v t IH]; intros pre best Hb Hmax Hfirst; cbn zeta.
  - rewrite app_nil_r. simpl. auto.
  - simpl argmax_from.
    assert (Hl : pre ++ v :: t = (pre ++ [v]) ++ t) by now rewrite <- app_assoc.
    assert (Hlen : length (pre ++ [v]) = S (length pre))
      by (rewrite length_app; simpl; lia).
    assert (Hv : nth (length pre) (pre ++ [v]) 0 = v)
      by (rewrite app_nth2, Nat.sub_diag by lia; reflexivity).
    destruct (Rlt_dec (nth best pre 0) v) as [Hlt|Hge].
    + specialize (IH (pre ++ [v]) (length pre)).
      rewrite Hlen, Hv in IH. rewrite Hl. apply IH.
      * lia.
      * intros j Hj. destruct (Nat.eq_dec j (length pre)) as [->|Hne].
        -- rewrite Hv. lra.
        -- rewrite app_nth1 by lia. specialize (Hmax j ltac:(lia)). lra.
      * intros j Hj. rewrite app_nth1 by lia. specialize (Hmax j Hj). lra.
    + specialize (IH (pre ++ [v]) best).
      rewrite Hlen in IH. rewrite (app_nth1 pre [v] 0 Hb) in IH.
      rewrite Hl. apply IH.
      * lia.
      * intros j Hj. destruct (Nat.eq_dec j (length pre)) as [->|Hne].
        -- rewrite Hv. lra.
        -- rewrite app_nth1 by lia. apply Hmax. lia.
      * intros j Hj. rewrite app_nth1 by lia. now apply Hfirst.
Qed.

Lemma argmax_spec (l : list R) :
  l <> [] ->
  (argmax l < length l)%nat
  /\ (forall j, (j < length l)%nat -> nth j l 0 <= nth (argmax l) l 0)
  /\ (forall j, (j < argmax l)%nat -> nth j l 0 < nth (argmax l) l 0).
Proof.
  destruct l as [|v t]; [congruence|]. intros _.
  apply (argmax_from_spec t [v] O); simpl.
  - lia.
  - intros j Hj. destruct j; [lra|lia].
  - intros j Hj. lia.
Qed.

(** C6: the predicted label of example [i] is a class index at which row
    [i] of the probability matrix is maximal, and every lower class index
    holds a strictly smaller probability (so ties go to the lowest index). *)
Theorem y_pred_is_first_argmax (self : LR.t) (input : matrix) (i : nat) :
  (0 < LR.n_out self)%nat -> (i < length input)%nat ->
  let p := LR.p_y_given_x self input in
  let label := nth i (LR.y_pred self input) 0%Z in
  (0 <= label < Z.of_nat (LR.n_out self))%Z
  /\ (forall k, (k < LR.n_out self)%nat ->
        mnth p i k <= mnth p i (Z.to_nat label))
  /\ (forall k, (k < Z.to_nat label)%nat ->
        mnth p i k < mnth p i (Z.to_nat label)).
Proof.
  intros Hout Hi. cbn zeta.
  unfold LR.y_pred, T.argmax_axis1.
  rewrite (@nth_map_in vector Z _ _ i 0%Z [])
    by (now rewrite p_y_given_x_length).
  rewrite Nat2Z.id. unfold mnth.
  pose proof (p_y_given_x_row_length self input i Hi) as Hlen.
  set (row := nth i (LR.p_y_given_x self input) []) in *.
  assert (Hne : row <> []) by (intros E; rewrite E in Hlen; simpl in Hlen; lia).
  destruct (argmax_spec row Hne) as [Hr [Hmax Hfirst]].
  rewrite Hlen in Hr, Hmax. subst row. repeat split.
  - apply Nat2Z.is_nonneg.
  - apply Nat2Z.inj_lt. exact Hr.
  - exact Hmax.
  - exact Hfirst.
Qed.

Lemma y_pred_is_first_argmax_witness :
  (0 <= nth 0 (LR.y_pred (LR.init 2 2) [[1%R; 1%R]]) 0
   < Z.of_nat (LR.n_out (LR.init 2 2)))%Z.
Proof.
  apply (y_pred_is_first_argmax (LR.init 2 2) [[1; 1]] 0); simpl; lia.
Defined.

(** The advanced indexing of [negative_log_likelihood], with labels that
    are class indices of their rows. *)
Lemma take2_log_arange (p : matrix) (y : list Z) :
  length y = length p ->
  (forall i, (i < length y)%nat ->
     (0 <= nth i y 0 < Z.of_nat (length (nth i p [])))%Z) ->
  take2 (T.log p) (arange (length y)) y
  = map (fun i => ln (mnth p i (Z.to_nat (nth i y 0%Z)))) (seq 0 (length y)).
Proof.
  intros Hlen Hy. unfold take2, arange.
  rewrite combine_arange, map_map.
  apply map_ext_in. intros i Hi. apply in_seq in Hi. cbn [fst snd].
  rewrite Nat.sub_0_r, norm_index_nonneg.
  unfold T.log.
  rewrite (@nth_map_in (list R) (list R) (map ln) p i [] []) by lia.
  rewrite length_map.
  specialize (Hy i ltac:(lia)).
  rewrite norm_index_in_range by lia.
  unfold mnth. apply nth_map_in. lia.
Qed.

Lemma nll_of_mean (p : matrix) (y : list Z) :
  length y = length p ->
  (forall i, (i < length y)%nat ->
     (0 <= nth i y 0 < Z.of_nat (length (nth i p [])))%Z) ->
  LR.nll_of p y
  = Rsum (map (fun i => - ln (mnth p i (Z.to_nat (nth i y 0%Z))))
              (seq 0 (length y)))
    / INR (length y).
Proof.
  intros Hlen Hy. unfold LR.nll_of, T.mean.
  rewrite take2_log_arange by assumption.
  rewrite length_map, length_seq.
  rewrite (Rsum_map_opp (fun i => ln (mnth p i (Z.to_nat (nth i y 0%Z))))).
  unfold Rdiv. lra.
Qed.

(** C7: on a probability matrix with positive entries and labels that are
    class indices, [negative_log_likelihood] is the mean over the batch of
    [- log p[i, y[i]]]. *)
Theorem negative_log_likelihood_is_mean (p : matrix) (y : list Z) :
  (forall row, In row p -> forall v, In v row -> 0 < v) ->
  length y = length p ->
  (forall i, (i < length y)%nat ->
     (0 <= nth i y 0 < Z.of_nat (length (nth i p [])))%Z) ->
  LR.nll_of p y
  = Rsum (map (fun i => - ln (mnth p i (Z.to_nat (nth i y 0%Z))))
              (seq 0 (length y)))
    / INR (length y).
Proof.
  intros _ Hlen Hy. now apply nll_of_mean.
Qed.

Lemma negative_log_likelihood_is_mean_witness :
  LR.nll_of [[1 / 2; 1 / 2]] [0%Z]
  = Rsum (map (fun i => - ln (mnth [[1 / 2; 1 / 2]] i
                                 (Z.to_nat (nth i [0%Z] 0%Z))))
              (seq 0 (length [0%Z])))
    / INR (length [0%Z]).
Proof.
  apply (negative_log_likelihood_is_mean [[1 / 2; 1 / 2]] [0%Z]).
  - intros row [<-|[]] v [<-|[<-|[]]]; lra.
  - reflexivity.
  - intros [|i] Hi; simpl in *; lia.
Defined.

(** The method that the cost of the driver is built from is [nll_of] on
    the probabilities of the model, whose entries are all positive. *)
Lemma negative_log_likelihood_of_model (self : LR.t) (input : matrix) (y : list Z) :
  length y = length input ->
  (forall i, (i < length y)%nat -> (0 <= nth i y 0 < Z.of_nat (LR.n_out self))%Z) ->
  LR.negative_log_likelihood self input y
  = Rsum (map (fun i => - ln (mnth (LR.p_y_given_x self input) i
                                 (Z.to_nat (nth i y 0%Z))))
              (seq 0 (length y)))
    / INR (length y).
Proof.
  intros Hlen Hy. unfold LR.negative_log_likelihood.
  apply nll_of_mean.
  - now rewrite p_y_given_x_length.
  - intros i Hi. rewrite p_y_given_x_row_length by lia. now apply Hy.
Qed.

(** *** errors *)

(** C8, the rank check: a label variable of rank 2 does not get the
    [TypeError] the method means to raise; building its arguments reads the
    unbound name [target], and the call ends in a [NameError]. *)
Theorem errors_rank_mismatch_raises_NameError
    (self : LR.t) (input : matrix) (y : list Z) :
  LR.errors self input (matrix_labels y) = raise NameError.
Proof. reflexivity. Qed.

Lemma errors_rank_mismatch (self : LR.t) (input : matrix) (y : LR.variable) :
  T.ndim (LR.type y) <> 1%nat -> LR.errors self input y = raise NameError.
Proof.
  intros H. unfold LR.errors. simpl T.ndim.
  destruct (Nat.eqb_spec (T.ndim (LR.type y)) 1); [contradiction|reflexivity].
Qed.

Lemma errors_not_integer (self : LR.t) (input : matrix) (y : LR.variable) :
  T.ndim (LR.type y) = 1%nat ->
  String.prefix "int" (T.dtype (LR.type y)) = false ->
  LR.errors self input y = raise NotImplementedError.
Proof.
  intros H1 H2. unfold LR.errors. simpl T.ndim. rewrite H1, H2. reflexivity.
Qed.

Lemma errors_integer_vector (self : LR.t) (input : matrix) (y : LR.variable) :
  T.ndim (LR.type y) = 1%nat ->
  String.prefix "int" (T.dtype (LR.type y)) = true ->
  LR.errors self input y
  = ret (T.mean (T.neq (LR.y_pred self input) (LR.value y))).
Proof.
  intros H1 H2. unfold LR.errors. simpl T.ndim. rewrite H1, H2. reflexivity.
Qed.

Lemma neq_entries (a b : list Z) (v : R) : In v (T.neq a b) -> v = 0 \/ v = 1.
Proof.
  unfold T.neq. intros Hv. apply in_map_iff in Hv.
  destruct Hv as [[x y] [<- _]]. cbn [fst snd]. destruct (x =? y)%Z; auto.
Qed.

(** The fraction of mismatches lies in [0, 1]. *)
Lemma mean_neq_bounds (a b : list Z) : 0 <= T.mean (T.neq a b) <= 1.
Proof.
  unfold T.mean.
  assert (H0 : 0 <= Rsum (T.neq a b)).
  { apply Rsum_nonneg. intros v Hv. destruct (neq_entries _ _ _ Hv); lra. }
  assert (H1 : Rsum (T.neq a b) <= INR (length (T.neq a b))).
  { apply Rsum_le_length. intros v Hv. destruct (neq_entries _ _ _ Hv); lra. }
  destruct (T.neq a b) as [|v l] eqn:E.
  - simpl. unfold Rdiv. rewrite Rinv_0. unfold Rsum; simpl. lra.
  - assert (Hn : 0 < INR (length (v :: l))) by (apply lt_0_INR; simpl; lia).
    split.
    + apply Rmult_le_reg_r with (r := INR (length (v :: l))); [exact Hn|].
      unfold Rdiv. rewrite Rmult_assoc, Rinv_l by lra. lra.
    + apply Rmult_le_reg_r with (r := INR (length (v :: l))); [exact Hn|].
      unfold Rdiv. rewrite Rmult_assoc, Rinv_l by lra. lra.
Qed.

Lemma mean_neq_all_equal (a : list Z) : T.mean (T.neq a a) = 0.
Proof.
  unfold T.mean.
  assert (H : Rsum (T.neq a a) = 0).
  { unfold T.neq. induction a as [|x a IH]; [reflexivity|].
    cbn [combine map fst snd]. rewrite Z.eqb_refl.
    unfold Rsum in *; simpl. rewrite IH. lra. }
  rewrite H. unfold Rdiv. lra.
Qed.

Lemma mean_neq_all_different (a b : list Z) :
  length a = length b -> a <> [] ->
  (forall i, (i < length a)%nat -> nth i a 0%Z <> nth i b 0%Z) ->
  T.mean (T.neq a b) = 1.
Proof.
  intros Hlen Hne Hd. unfold T.mean.
  assert (H : Rsum (T.neq a b) = INR (length (T.neq a b))).
  { clear Hne. revert b Hlen Hd. unfold T.neq.
    induction a as [|x a IH]; intros [|z b] Hlen Hd; simpl in Hlen; try lia.
    - reflexivity.
    - cbn [combine map fst snd].
      destruct (Z.eqb_spec x z) as [E|_].
      + exfalso. apply (Hd O); simpl; [lia|exact E].
      + change (length (1 :: map (fun p : Z * Z => if (fst p =? snd p)%Z then 0 else 1)
                                (combine a b)))
          with (S (length (map (fun p : Z * Z => if (fst p =? snd p)%Z then 0 else 1)
                                (combine a b)))).
        rewrite S_INR. unfold Rsum in *. simpl.
        rewrite IH; [lra|lia|].
        intros i Hi. apply (Hd (S i)). simpl. lia. }
  rewrite H.
  assert (0 < INR (length (T.neq a b))).
  { apply lt_0_INR. unfold T.neq. rewrite length_map, length_combine.
    rewrite <- Hlen, Nat.min_id. destruct a; [congruence|]. simpl. lia. }
  unfold Rdiv. apply Rinv_r. lra.
Qed.

End ClassifierTheorems.

(** ** The compiled functions and the mini-batches *)

Module BatchFacts.
Import Numpy NumpyFacts Spec ClassifierFacts SGD.

Lemma xrange_length (n : Z) : length (xrange n) = Z.to_nat n.
Proof. unfold xrange. now rewrite length_map, length_seq. Qed.

Lemma in_xrange (n i : Z) : In i (xrange n) <-> (0 <= i < n)%Z.
Proof.
  unfold xrange. rewrite in_map_iff. split.
  - intros [k [<- Hk]]. apply in_seq in Hk. lia.
  - intros H. exists (Z.to_nat i). split; [lia|]. apply in_seq. lia.
Qed.

Lemma n_batches_bounds (set_x : matrix) :
  let n := n_batches set_x in
  (0 <= n /\ n * batch_size <= Z.of_nat (length set_x) < (n + 1) * batch_size)%Z.
Proof.
  cbn zeta. unfold n_batches, batch_size.
  pose proof (Z.div_mod (Z.of_nat (length set_x)) 500 ltac:(lia)) as Hdm.
  pose proof (Z.mod_pos_bound (Z.of_nat (length set_x)) 500 ltac:(lia)) as Hm.
  assert (0 <= Z.of_nat (length set_x) / 500)%Z
    by (apply Z.div_pos; lia).
  lia.
Qed.

(** The slices evaluated by one sweep over the batches of a split. *)
Lemma minibatches_tile {A : Type} (set : list A) (n : Z) :
  (0 <= n)%Z -> (n * batch_size <= Z.of_nat (length set))%Z ->
  concat (map (fun i => minibatch set (i * batch_size)) (xrange n))
  = firstn (Z.to_nat (n * batch_size)) set.
Proof.
  intros Hn Hle.
  replace (Z.to_nat (n * batch_size))
    with (Z.to_nat n * Z.to_nat batch_size)%nat by (unfold batch_size; lia).
  rewrite <- (concat_slices set (Z.to_nat batch_size) (Z.to_nat n)).
  - unfold xrange. rewrite map_map. f_equal.
    apply map_ext_in. intros i _.
    unfold minibatch, slice. f_equal.
    + f_equal. unfold batch_size. lia.
    + f_equal. unfold batch_size. lia.
  - unfold batch_size in *. lia.
Qed.

Lemma minibatch_whole {A : Type} (set : list A) :
  length set = 500%nat -> minibatch set 0 = set.
Proof.
  intros H. unfold minibatch, slice, batch_size.
  change (Z.to_nat (0 + 500 - 0)) with 500%nat. change (Z.to_nat 0) with O.
  rewrite skipn_O, <- H. apply firstn_all.
Qed.

Lemma chunks_length (c r : nat) (flat : list R) : length (chunks c r flat) = r.
Proof.
  revert flat. induction r as [|r IH]; intros flat; simpl; [reflexivity|].
  now rewrite IH.
Qed.

Lemma concat_length_uniform (x : matrix) (c : nat) :
  (forall row, In row x -> length row = c) ->
  length (concat x) = (length x * c)%nat.
Proof.
  induction x as [|row x IH]; intros H; simpl; [reflexivity|].
  rewrite length_app, IH by (intros; apply H; now right).
  rewrite (H row) by now left. reflexivity.
Qed.

(** A slice of [batch_size] images of 28 x 28 pixels is accepted by the
    [reshape]. *)
Lemma classifier_input_ok (x : matrix) :
  length x = 500%nat ->
  (forall row, In row x -> length row = 784%nat) ->
  exists input, classifier_input x = ret input /\ length input = 500%nat.
Proof.
  intros Hx Hrow. unfold classifier_input, reshape.
  rewrite (concat_length_uniform x 784 Hrow), Hx.
  change (Z.to_nat batch_size) with 500%nat.
  change (28 * 28)%nat with 784%nat.
  rewrite Nat.eqb_refl.
  eexists. split; [reflexivity|]. apply chunks_length.
Qed.

Lemma reshape_length (r c : nat) (a m : matrix) :
  reshape r c a = ret m -> length m = r.
Proof.
  unfold reshape. intros H.
  destruct (Nat.eqb _ _); [|discriminate].
  injection H as <-. apply chunks_length.
Qed.

Lemma classifier_input_length (x input : matrix) :
  classifier_input x = ret input -> length input = 500%nat.
Proof.
  unfold classifier_input. intros H.
  apply reshape_length in H. rewrite H. reflexivity.
Qed.

Lemma y_pred_length (c : LR.t) (input : matrix) :
  length (LR.y_pred c input) = length input.
Proof.
  unfold LR.y_pred, T.argmax_axis1.
  now rewrite length_map, p_y_given_x_length.
Qed.

(** The error functions return a fraction in [0, 1], when they return. *)
Lemma errors_function_bounds (set_x : matrix) (set_y : list Z) (off : Z)
    (c : LR.t) (v : R) :
  errors_function set_x set_y off c = ret v -> 0 <= v <= 1.
Proof.
  unfold errors_function. intros H.
  apply bind_inv in H. destruct H as [input [_ H]]. cbv zeta in H.
  destruct (Nat.eqb _ _); [|discriminate].
  rewrite ClassifierTheorems.errors_integer_vector in H by reflexivity.
  injection H as <-.
  apply ClassifierTheorems.mean_neq_bounds.
Qed.

Lemma errors_function_ok (set_x : matrix) (set_y : list Z) (c : LR.t) :
  length set_x = 500%nat ->
  (forall row, In row set_x -> length row = 784%nat) ->
  length set_y = 500%nat ->
  exists v, errors_function set_x set_y 0 c = ret v.
Proof.
  intros Hx Hrow Hy. unfold errors_function.
  rewrite !minibatch_whole by assumption.
  destruct (classifier_input_ok set_x Hx Hrow) as [input [-> Hlen]].
  rewrite bind_ret, y_pred_length, Hlen, Hy.
  change (500 =? 500)%nat with true. cbv iota.
  unfold LR.errors. eexists. reflexivity.
Qed.

Lemma train_model_ok (learning_rate : R) (s : shared) :
  length (train_set_x s) = 500%nat ->
  (forall row, In row (train_set_x s) -> length row = 784%nat) ->
  length (train_set_y s) = 500%nat ->
  forallb (index_ok (LR.n_out (classifier s))) (train_set_y s) = true ->
  exists cost_ij s', train_model learning_rate 0 s = ret (cost_ij, s').
Proof.
  intros Hx Hrow Hy Hidx. unfold train_model.
  rewrite !minibatch_whole by assumption.
  destruct (classifier_input_ok _ Hx Hrow) as [input [-> Hlen]].
  rewrite bind_ret. cbv zeta. rewrite Hidx. eexists. eexists. reflexivity.
Qed.

End BatchFacts.

Module BatchTheorems.
Import Numpy NumpyFacts Spec ClassifierFacts SGD BatchFacts.

(** C9: the number of mini-batches of a split is the floor of its size
    divided by [batch_size]; one sweep evaluates exactly the first
    [n * batch_size] examples, the offsets of the training loop stay inside
    them, so the examples of an incomplete last batch are never visited;
    and 501 examples give exactly one batch. *)
Theorem n_batches_is_floor_division (set_x : matrix) :
  let n := n_batches set_x in
  (0 <= n /\ n * batch_size <= Z.of_nat (length set_x) < (n + 1) * batch_size)%Z
  /\ concat (map (fun i => minibatch set_x (i * batch_size)) (xrange n))
     = firstn (Z.to_nat (n * batch_size)) set_x
  /\ (forall iter, 0 < n ->
        0 <= (iter mod n) * batch_size
        /\ (iter mod n) * batch_size + batch_size <= n * batch_size)%Z
  /\ (length set_x = 501%nat -> n = 1%Z).
Proof.
  cbn zeta. pose proof (n_batches_bounds set_x) as Hb. cbn zeta in Hb.
  split; [exact Hb|]. split; [|split].
  - apply minibatches_tile; lia.
  - intros iter Hn.
    pose proof (Z.mod_pos_bound iter (n_batches set_x) Hn) as Hm.
    unfold batch_size. lia.
  - intros H. unfold n_batches, batch_size. rewrite H. reflexivity.
Qed.

Lemma n_batches_is_floor_division_witness :
  length (repeat (@nil R) 501) = 501%nat
  /\ n_batches (repeat (@nil R) 501) = 1%Z.
Proof.
  split.
  - apply repeat_length.
  - apply (n_batches_is_floor_division (repeat (@nil R) 501)).
    apply repeat_length.
Defined.

Lemma train_model_inv (learning_rate : R) (off : Z) (s : shared)
    (cost_ij : R) (s' : shared) :
  train_model learning_rate off s = ret (cost_ij, s') ->
  exists x,
    classifier_input (minibatch (train_set_x s) off) = ret x
    /\ cost_ij = cost (classifier s) x (minibatch (train_set_y s) off)
    /\ s' = with_classifier s
              (updates learning_rate (classifier s) x
                       (minibatch (train_set_y s) off)).
Proof.
  unfold train_model. intros H.
  apply bind_inv in H. destruct H as [x [Hx H]]. cbv zeta in H.
  destruct (forallb _ _); [|discriminate].
  exists x. split; [exact Hx|]. injection H as <- <-. split; reflexivity.
Qed.

Lemma train_phase_inv (learning_rate : R) (n_minibatches iter : Z)
    (st : loop_state) (cost_ij : R) (st' : loop_state) :
  train_phase learning_rate n_minibatches iter st = ret (cost_ij, st') ->
  train_model learning_rate ((iter mod n_minibatches) * batch_size) (store st)
  = ret (cost_ij, store st')
  /\ patience st' = patience st
  /\ best_validation_loss st' = best_validation_loss st
  /\ test_score st' = test_score st.
Proof.
  unfold train_phase. intros H.
  apply bind_inv in H. destruct H as [[c s'] [Hr H]].
  injection H as <- <-. cbn [fst snd store patience best_validation_loss test_score].
  repeat split. exact Hr.
Qed.

(** C4: a call of [train_model] returns the negative log-likelihood of
    the batch under the parameters it found, replaces the classifier by
    [updates] computed from those same parameters and leaves every dataset
    array as it was; the loop's own counters are untouched by the step. *)
Theorem train_model_returns_old_cost_and_frames
    (learning_rate : R) (n_minibatches iter : Z) (st : loop_state)
    (cost_ij : R) (st' : loop_state) :
  train_phase learning_rate n_minibatches iter st = ret (cost_ij, st') ->
  let s := store st in
  let off := ((iter mod n_minibatches) * batch_size)%Z in
  let y := minibatch (train_set_y s) off in
  exists x,
    classifier_input (minibatch (train_set_x s) off) = ret x
    /\ train_model learning_rate off s = ret (cost_ij, store st')
    /\ cost_ij = LR.negative_log_likelihood (classifier s) x y
    /\ classifier (store st') = updates learning_rate (classifier s) x y
    /\ same_datasets s (store st')
    /\ patience st' = patience st
    /\ best_validation_loss st' = best_validation_loss st
    /\ test_score st' = test_score st.
Proof.
  intros H. cbn zeta.
  destruct (train_phase_inv _ _ _ _ _ _ H) as [Ht [Hp [Hb Hs]]].
  destruct (train_model_inv _ _ _ _ _ Ht) as [x [Hx [Hc Hs']]].
  exists x. split; [exact Hx|]. split; [exact Ht|]. split; [exact Hc|].
  rewrite Hs'. split; [reflexivity|]. split; [|auto].
  unfold same_datasets, with_classifier; cbn. repeat split.
Qed.

End BatchTheorems.

(** ** The early-stopping loop *)

Module LoopFacts.
Import Numpy NumpyFacts Spec ClassifierFacts SGD BatchFacts BatchTheorems.

Section Run.

Variable learning_rate : R.
Variable n_minibatches : Z.

Local Abbreviation run := (run_iterations learning_rate n_minibatches).
Local Abbreviation loop := (for_loop learning_rate n_minibatches).
Local Abbreviation body := (iteration learning_rate n_minibatches).

Lemma run_app (l1 l2 : list Z) (st : loop_state) :
  run (l1 ++ l2) st = (st' <- run l1 st ;; run l2 st').
Proof.
  revert st. induction l1 as [|i l1 IH]; intros st; simpl.
  - reflexivity.
  - destruct (body i st) as [e|st1]; simpl; [reflexivity|]. apply IH.
Qed.

Lemma run_cons (i : Z) (l : list Z) (st : loop_state) :
  run (i :: l) st = (st' <- body i st ;; run l st').
Proof. reflexivity. Qed.

(** The iterations that [for_loop] executes form an initial segment of
    the range, cut at the first iteration that ends with
    [patience <= iter]. *)
Lemma for_loop_seq (n a : nat) (st r : loop_state) :
  loop (map Z.of_nat (seq a n)) st = ret r ->
  (n = O /\ r = st)
  \/ exists k, (a <= k < a + n)%nat
       /\ run (map Z.of_nat (seq a (S k - a))) st = ret r
       /\ ((patience r <= Z.of_nat k)%Z \/ k = (a + n - 1)%nat)
       /\ forall j st', (a <= j < k)%nat ->
            run (map Z.of_nat (seq a (S j - a))) st = ret st' ->
            (Z.of_nat j < patience st')%Z.
Proof.
  revert a st. induction n as [|n IH]; intros a st H.
  - left. simpl in H. injection H as <-. auto.
  - right. cbn [seq map for_loop] in H.
    apply bind_inv in H. destruct H as [st1 [Hbody H]].
    destruct (Z.leb_spec (patience st1) (Z.of_nat a)) as [Hstop|Hgo].
    + injection H as <-. exists a. split; [lia|].
      replace (S a - a)%nat with 1%nat by lia. cbn [seq map].
      rewrite run_cons, Hbody, bind_ret. split; [reflexivity|].
      split; [now left|]. intros j st' Hj. lia.
    + destruct (IH (S a) st1 H) as [[-> ->]|[k [Hk [Hrun [Hend Hbefore]]]]].
      * exists a. split; [lia|].
        replace (S a - a)%nat with 1%nat by lia. cbn [seq map].
        rewrite run_cons, Hbody, bind_ret. split; [reflexivity|].
        split; [right; lia|]. intros j st' Hj. lia.
      * exists k. split; [lia|].
        replace (S k - a)%nat with (S (S k - S a)) by lia. cbn [seq map].
        rewrite run_cons, Hbody, bind_ret. split; [exact Hrun|].
        split; [destruct Hend; [now left|right; lia]|].
        intros j st' Hj Hj'.
        destruct (Nat.eq_dec j a) as [->|Hne].
        -- replace (S a - a)%nat with 1%nat in Hj' by lia. cbn [seq map] in Hj'.
           rewrite run_cons, Hbody, bind_ret in Hj'. injection Hj' as <-. exact Hgo.
        -- apply (Hbefore j st'); [lia|].
           replace (S j - a)%nat with (S (S j - S a)) in Hj' by lia.
           cbn [seq map] in Hj'.
           now rewrite run_cons, Hbody, bind_ret in Hj'.
Qed.

Lemma xrange_succ (k : nat) :
  xrange (Z.of_nat k + 1) = map Z.of_nat (seq 0 (S k - 0)).
Proof.
  unfold xrange. f_equal. f_equal. lia.
Qed.

Lemma for_loop_xrange (N : Z) (st r : loop_state) :
  loop (xrange N) st = ret r ->
  ((N <= 0)%Z /\ r = st)
  \/ exists k, (0 <= k < N)%Z
       /\ run (xrange (k + 1)) st = ret r
       /\ ((patience r <= k)%Z \/ k = (N - 1)%Z)
       /\ forall j st', (0 <= j < k)%Z ->
            run (xrange (j + 1)) st = ret st' -> (j < patience st')%Z.
Proof.
  unfold xrange at 1. intros H.
  destruct (for_loop_seq _ _ _ _ H) as [[Hn ->]|[k [Hk [Hrun [Hend Hbefore]]]]].
  - left. split; [lia|reflexivity].
  - right. exists (Z.of_nat k). split; [lia|].
    rewrite xrange_succ. split; [exact Hrun|].
    split; [destruct Hend; [now left|right; lia]|].
    intros j st' Hj Hj'.
    replace j with (Z.of_nat (Z.to_nat j)) in * by lia.
    apply Hbefore; [lia|]. now rewrite <- xrange_succ.
Qed.

(** *** Patience *)

Lemma mapM_inv {A B : Type} (f : A -> result B) (l : list A) (bs : list B) :
  mapM f l = ret bs ->
  forall b, In b bs -> exists a, In a l /\ f a = ret b.
Proof.
  revert bs. induction l as [|a l IH]; intros bs H b Hb.
  - simpl in H. injection H as <-. contradiction.
  - cbn [mapM] in H. apply bind_inv in H. destruct H as [b0 [Hb0 H]].
    apply bind_inv in H. destruct H as [bs0 [Hbs0 H]].
    injection H as <-. destruct Hb as [<-|Hb].
    + exists a. split; [now left|exact Hb0].
    + destruct (IH bs0 Hbs0 b Hb) as [a' [Ha' Hf]].
      exists a'. split; [now right|exact Hf].
Qed.

Lemma numpy_mean_nonneg (l : list R) (r : R) :
  (forall v, In v l -> 0 <= v) -> numpy_mean l = Num r -> 0 <= r.
Proof.
  intros Hl. pose proof (Rsum_nonneg l Hl) as Hs.
  unfold numpy_mean. destruct l as [|v l]; [discriminate|].
  intros H. injection H as <-.
  apply Rle_mult_inv_pos; [exact Hs|].
  apply (lt_0_INR (S (length l))). lia.
Qed.

Lemma this_validation_loss_nonneg (s : shared) (r : R) :
  this_validation_loss s = ret (Num r) -> 0 <= r.
Proof.
  unfold this_validation_loss. intros H. cbv zeta in H.
  apply bind_inv in H. destruct H as [losses [Hm H]].
  injection H as H. apply (numpy_mean_nonneg losses r); [|exact H].
  intros v Hv. destruct (mapM_inv _ _ _ Hm v Hv) as [i [_ Hi]].
  unfold validate_model in Hi. apply errors_function_bounds in Hi. lra.
Qed.

Lemma loss_lt_Num (this best : loss) :
  loss_lt this best = true -> exists t, this = Num t.
Proof.
  destruct this as [t| |]; simpl; try discriminate.
  intros _. now exists t.
Qed.

(** Below [best * improvement_threshold] is below [best], for a best
    loss that is not negative. *)
Lemma loss_lt_scaled (this best : loss) :
  match best with Num r => 0 <= r | _ => True end ->
  loss_lt this (loss_scale best improvement_threshold) = true ->
  loss_lt this best = true.
Proof.
  destruct this as [t| |], best as [r| |]; simpl; try (intros; assumption).
  unfold improvement_threshold. intros Hr.
  destruct (Rlt_dec t (r * (995 / 1000))) as [H1|H1]; [|discriminate].
  intros _. destruct (Rlt_dec t r) as [H2|H2]; [reflexivity|]. lra.
Qed.

(** What the validation phase does to the state. *)
Lemma validation_phase_inv (iter : Z) (st st' : loop_state) :
  validation_phase n_minibatches iter st = ret st' ->
  (validation_due n_minibatches iter = false /\ st' = st)
  \/ exists this,
       validation_due n_minibatches iter = true
       /\ this_validation_loss (store st) = ret this
       /\ ((loss_lt this (best_validation_loss st) = false /\ st' = st)
           \/ (loss_lt this (best_validation_loss st) = true
               /\ store st' = store st
               /\ patience st' = improved_patience iter this st
               /\ best_validation_loss st' = this)).
Proof.
  unfold validation_phase. intros H.
  destruct (validation_due n_minibatches iter).
  - right. apply bind_inv in H. destruct H as [this [Hthis H]].
    exists this. split; [reflexivity|]. split; [exact Hthis|].
    destruct (loss_lt this (best_validation_loss st)).
    + right. cbv zeta in H. apply bind_inv in H. destruct H as [score [_ H]].
      injection H as <-. cbn. auto.
    + left. injection H as <-. auto.
  - left. injection H as <-. auto.
Qed.

Lemma iteration_inv (iter : Z) (st st' : loop_state) :
  body iter st = ret st' ->
  exists cost_ij st1,
    train_phase learning_rate n_minibatches iter st = ret (cost_ij, st1)
    /\ validation_phase n_minibatches iter st1 = ret st'.
Proof.
  unfold iteration. intros H. cbv zeta in H.
  apply bind_inv in H. destruct H as [[c st1] [Ht H]].
  exists c, st1. split; [exact Ht|exact H].
Qed.

Lemma validation_phase_best_ok (iter : Z) (st st' : loop_state) :
  validation_phase n_minibatches iter st = ret st' -> best_ok st -> best_ok st'.
Proof.
  intros H Hok.
  destruct (validation_phase_inv _ _ _ H)
    as [[_ ->]|[this [_ [Hthis [[_ ->]|[Hlt [_ [_ Hbest]]]]]]]]; try exact Hok.
  unfold best_ok. rewrite Hbest.
  destruct (loss_lt_Num _ _ Hlt) as [t ->].
  now apply this_validation_loss_nonneg with (s := store st).
Qed.

Lemma validation_phase_patience (iter : Z) (st st' : loop_state) :
  validation_phase n_minibatches iter st = ret st' ->
  (patience st <= patience st')%Z.
Proof.
  intros H.
  destruct (validation_phase_inv _ _ _ H)
    as [[_ ->]|[this [_ [Hthis [[_ ->]|[Hlt [_ [Hp _]]]]]]]]; try lia.
  rewrite Hp. unfold improved_patience.
  destruct (loss_lt this (loss_scale _ _)); lia.
Qed.

Lemma iteration_best_ok (iter : Z) (st st' : loop_state) :
  body iter st = ret st' -> best_ok st -> best_ok st'.
Proof.
  intros H Hok. destruct (iteration_inv _ _ _ H) as [c [st1 [Ht Hv]]].
  apply (validation_phase_best_ok _ _ _ Hv).
  destruct (train_phase_inv _ _ _ _ _ _ Ht) as [_ [_ [Hb _]]].
  unfold best_ok in *. now rewrite Hb.
Qed.

Lemma iteration_patience (iter : Z) (st st' : loop_state) :
  body iter st = ret st' -> (patience st <= patience st')%Z.
Proof.
  intros H. destruct (iteration_inv _ _ _ H) as [c [st1 [Ht Hv]]].
  apply validation_phase_patience in Hv.
  destruct (train_phase_inv _ _ _ _ _ _ Ht) as [_ [Hp _]]. lia.
Qed.

Lemma run_best_ok (iters : list Z) (st st' : loop_state) :
  run iters st = ret st' -> best_ok st -> best_ok st'.
Proof.
  revert st. induction iters as [|i iters IH]; intros st H Hok.
  - simpl in H. now injection H as <-.
  - rewrite run_cons in H. apply bind_inv in H. destruct H as [st1 [Hb H]].
    apply (IH st1 H). now apply (iteration_best_ok i st).
Qed.

Lemma run_patience (iters : list Z) (st st' : loop_state) :
  run iters st = ret st' -> (patience st <= patience st')%Z.
Proof.
  revert st. induction iters as [|i iters IH]; intros st H.
  - simpl in H. injection H as <-. lia.
  - rewrite run_cons in H. apply bind_inv in H. destruct H as [st1 [Hb H]].
    apply iteration_patience in Hb. apply IH in H. lia.
Qed.

Lemma xrange_split (j k : Z) :
  (0 <= j <= k)%Z ->
  exists rest, xrange k = xrange j ++ rest.
Proof.
  intros H. unfold xrange.
  replace (Z.to_nat k) with (Z.to_nat j + (Z.to_nat k - Z.to_nat j))%nat by lia.
  rewrite seq_app, map_app. eexists. reflexivity.
Qed.

End Run.

End LoopFacts.

Module LoopTheorems.
Import Numpy NumpyFacts Spec ClassifierFacts SGD BatchFacts BatchTheorems LoopFacts.

(** *** A run on the one-batch dataset *)

Lemma n_batches_one (set_x : matrix) :
  length set_x = 500%nat -> n_batches set_x = 1%Z.
Proof. intros H. unfold n_batches. rewrite H. reflexivity. Qed.

Lemma sweep_ok (f : Z -> shared -> result R) (set_x : matrix) (set_y : list Z)
    (s : shared) :
  (forall off, f off s = errors_function set_x set_y off (classifier s)) ->
  one_batch set_x set_y ->
  exists v,
    (losses <- mapM (fun i => f (i * batch_size)%Z s) (xrange (n_batches set_x)) ;;
     ret (numpy_mean losses)) = ret (Num v).
Proof.
  intros Hf [Hx [Hrow Hy]]. rewrite (n_batches_one _ Hx).
  change (xrange 1) with [0%Z]. cbn [mapM].
  change (0 * batch_size)%Z with 0%Z. rewrite Hf.
  destruct (errors_function_ok set_x set_y (classifier s) Hx Hrow Hy) as [v ->].
  rewrite !bind_ret. eexists. reflexivity.
Qed.

Lemma first_iteration_ok (learning_rate : R) (st : loop_state) :
  one_batch (train_set_x (store st)) (train_set_y (store st)) ->
  one_batch (valid_set_x (store st)) (valid_set_y (store st)) ->
  one_batch (test_set_x (store st)) (test_set_y (store st)) ->
  forallb (index_ok (LR.n_out (classifier (store st)))) (train_set_y (store st))
  = true ->
  exists st', iteration learning_rate 1 0 st = ret st'.
Proof.
  intros [Hx [Hrow Hy]] Hvalid Htest Hidx.
  destruct (train_model_ok learning_rate (store st) Hx Hrow Hy Hidx)
    as [c [s' Ht]].
  destruct (train_model_inv _ _ _ _ _ Ht) as [x [_ [_ Hs']]].
  unfold iteration, train_phase. cbv zeta.
  change ((0 mod 1) * batch_size)%Z with 0%Z. rewrite Ht, !bind_ret.
  cbn [fst snd]. unfold validation_phase.
  change (validation_due 1 0) with true. cbv iota.
  cbn [store best_validation_loss patience test_score].
  assert (Hv : one_batch (valid_set_x s') (valid_set_y s')) by (now rewrite Hs').
  assert (Hte : one_batch (test_set_x s') (test_set_y s')) by (now rewrite Hs').
  destruct (sweep_ok validate_model _ _ s' (fun off => eq_refl) Hv) as [v Hvl].
  destruct (sweep_ok test_model _ _ s' (fun off => eq_refl) Hte) as [t Htl].
  unfold this_validation_loss, this_test_score. cbv zeta.
  rewrite Hvl, bind_ret.
  destruct (loss_lt (Num v) (best_validation_loss st)).
  - rewrite Htl, bind_ret. eexists. reflexivity.
  - eexists. reflexivity.
Qed.

Lemma black_one_batch : one_batch (fst black_split) (snd black_split).
Proof.
  unfold black_split. cbn [fst snd]. split; [|split].
  - apply repeat_length.
  - intros row Hrow. apply repeat_spec in Hrow. rewrite Hrow. apply repeat_length.
  - apply repeat_length.
Qed.

Lemma black_first_iteration (learning_rate : R) :
  exists st', iteration learning_rate 1 0 (initial_state black_mnist) = ret st'.
Proof.
  apply first_iteration_ok; try exact black_one_batch.
  vm_compute. reflexivity.
Qed.

Lemma black_n_minibatches :
  n_batches (train_set_x (initial_store black_mnist)) = 1%Z.
Proof. apply n_batches_one. apply repeat_length. Qed.

Lemma black_run (learning_rate : R) (clock : nat -> R) :
  exists rep,
    sgd_optimization_mnist learning_rate 1 (black_env clock) = ret rep.
Proof.
  unfold sgd_optimization_mnist. cbv zeta.
  change (mnist_pkl_gz (black_env clock)) with black_mnist.
  rewrite black_n_minibatches. change (xrange (1 * 1)) with [0%Z].
  cbn [for_loop].
  destruct (black_first_iteration learning_rate) as [st' ->].
  rewrite bind_ret.
  destruct (patience st' <=? 0)%Z; rewrite bind_ret; eexists; reflexivity.
Qed.

(** C1: a run that completes has executed the body for the iterations
    0, ..., k and no other, where k is the first iteration that ended with
    [patience <= iter], or the last one of the range,
    [n_iter * n_minibatches - 1], when there is none; the final state is
    the state that iteration k left, so no training step follows it. *)
Theorem loop_stops_when_patience_or_range_is_exhausted
    (learning_rate : R) (n_iter : Z) (env : environment) (rep : report) :
  sgd_optimization_mnist learning_rate n_iter env = ret rep ->
  let data := mnist_pkl_gz env in
  let n_minibatches := n_batches (train_set_x (initial_store data)) in
  let N := (n_iter * n_minibatches)%Z in
  let run := run_iterations learning_rate n_minibatches in
  ((N <= 0)%Z /\ final rep = initial_state data)
  \/ exists k, (0 <= k < N)%Z
       /\ run (xrange (k + 1)) (initial_state data) = ret (final rep)
       /\ ((patience (final rep) <= k)%Z \/ k = (N - 1)%Z)
       /\ forall j st, (0 <= j < k)%Z ->
            run (xrange (j + 1)) (initial_state data) = ret st ->
            (j < patience st)%Z.
Proof.
  intros H. cbv zeta. unfold sgd_optimization_mnist in H. cbv zeta in H.
  apply bind_inv in H. destruct H as [st [Hloop H]].
  injection H as <-. cbn [final].
  exact (for_loop_xrange _ _ _ _ _ Hloop).
Qed.

Lemma loop_stops_when_patience_or_range_is_exhausted_witness :
  exists rep,
    sgd_optimization_mnist (13 / 100) 1 (black_env INR) = ret rep
    /\ exists k, (0 <= k < 1)%Z
         /\ run_iterations (13 / 100) 1 (xrange (k + 1))
              (initial_state black_mnist) = ret (final rep).
Proof.
  destruct (black_run (13 / 100) INR) as [rep Hrep].
  exists rep. split; [exact Hrep|].
  destruct (loop_stops_when_patience_or_range_is_exhausted _ _ _ _ Hrep)
    as [[HN _]|[k [Hk [Hrun _]]]].
  - exfalso. change (mnist_pkl_gz (black_env INR)) with black_mnist in HN.
    rewrite black_n_minibatches in HN. lia.
  - change (mnist_pkl_gz (black_env INR)) with black_mnist in Hk, Hrun.
    rewrite black_n_minibatches in Hk, Hrun.
    exists k. split; [lia|exact Hrun].
Defined.

(** C2: patience starts at 5000; an iteration whose validation check
    finds a loss strictly below [best_validation_loss *
    improvement_threshold] sets it to [max patience (iter *
    patience_increase)] and no other iteration changes it; hence it never
    decreases along a run. *)
Theorem patience_never_decreases (learning_rate : R) (data : mnist) :
  let n_minibatches := n_batches (train_set_x (initial_store data)) in
  let run := run_iterations learning_rate n_minibatches in
  let st0 := initial_state data in
  patience st0 = 5000%Z
  /\ (forall k st cost_ij st1 st',
        (0 <= k)%Z ->
        run (xrange k) st0 = ret st ->
        train_phase learning_rate n_minibatches k st = ret (cost_ij, st1) ->
        validation_phase n_minibatches k st1 = ret st' ->
        (significant_improvement n_minibatches k (store st1)
                                 (best_validation_loss st)
         /\ patience st' = Z.max (patience st) (k * patience_increase))
        \/ (~ significant_improvement n_minibatches k (store st1)
                                      (best_validation_loss st)
            /\ patience st' = patience st))
  /\ (forall j k sj sk,
        (0 <= j <= k)%Z ->
        run (xrange j) st0 = ret sj ->
        run (xrange k) st0 = ret sk ->
        (patience sj <= patience sk)%Z).
Proof.
  cbv zeta. split; [reflexivity|]. split.
  - intros k st c st1 st' Hk Hrun Htrain Hval.
    assert (Hok : best_ok st).
    { apply (run_best_ok _ _ _ _ _ Hrun). exact I. }
    destruct (train_phase_inv _ _ _ _ _ _ Htrain) as [_ [Hp [Hb _]]].
    unfold significant_improvement.
    destruct (validation_phase_inv _ _ _ _ Hval)
      as [[Hdue ->]|[this [Hdue [Hthis [[Hlt ->]|[Hlt [_ [Hp' _]]]]]]]].
    + right. split; [|exact Hp]. intros [Hdue' _]. congruence.
    + right. split; [|exact Hp]. intros [_ [this' [Hthis' Hsc]]].
      assert (this' = this) by (apply ret_inj; congruence). subst this'.
      rewrite Hb in Hlt. apply loss_lt_scaled in Hsc; [congruence|].
      exact Hok.
    + rewrite Hp'. unfold improved_patience. rewrite Hb, Hp.
      destruct (loss_lt this (loss_scale (best_validation_loss st)
                                          improvement_threshold)) eqn:Hsc.
      * left. split; [|reflexivity]. split; [exact Hdue|].
        exists this. split; [exact Hthis|exact Hsc].
      * right. split; [|reflexivity]. intros [_ [this' [Hthis' Hsc']]].
        assert (this' = this) by (apply ret_inj; congruence). subst this'. congruence.
  - intros j k sj sk Hjk Hj Hk.
    destruct (xrange_split j k Hjk) as [rest Hrest].
    rewrite Hrest, run_app, Hj, bind_ret in Hk.
    exact (run_patience _ _ _ _ _ Hk).
Qed.

Lemma patience_never_decreases_witness :
  exists st',
    run_iterations (13 / 100) 1 (xrange 1) (initial_state black_mnist) = ret st'
    /\ (patience (initial_state black_mnist) <= patience st')%Z.
Proof.
  destruct (black_first_iteration (13 / 100)) as [st' Hst'].
  assert (Hrun : run_iterations (13 / 100) 1 (xrange 1)
                   (initial_state black_mnist) = ret st').
  { change (xrange 1) with [0%Z]. cbn [run_iterations].
    rewrite Hst'. reflexivity. }
  exists st'. split; [exact Hrun|].
  pose proof (patience_never_decreases (13 / 100) black_mnist) as H.
  cbv zeta in H. rewrite black_n_minibatches in H.
  destruct H as [_ [_ Hmono]].
  apply (Hmono 0%Z 1%Z); [lia|reflexivity|exact Hrun].
Defined.

(** C4 at the first training step on the one-batch dataset. *)
Lemma train_model_returns_old_cost_and_frames_witness :
  exists cost_ij st',
    train_phase (13 / 100) 1 0 (initial_state black_mnist) = ret (cost_ij, st')
    /\ same_datasets (store (initial_state black_mnist)) (store st')
    /\ patience st' = patience (initial_state black_mnist).
Proof.
  destruct (black_first_iteration (13 / 100)) as [st2 Hst2].
  destruct (iteration_inv _ _ _ _ _ Hst2) as [c [st1 [Ht _]]].
  exists c, st1. split; [exact Ht|].
  destruct (train_model_returns_old_cost_and_frames _ _ _ _ _ _ Ht)
    as [x [_ [_ [_ [_ [Hd [Hp _]]]]]]].
  split; [exact Hd|exact Hp].
Defined.

End LoopTheorems.

(** ** The gradient of the cost *)

Module GradientFacts.
Import Numpy NumpyFacts Spec ClassifierFacts SGD.

Lemma derivative_at_unique (f : R -> R) (x l : R) :
  derivable_pt_lim f x l -> T.derivative_at f x = l.
Proof.
  intros H. unfold T.derivative_at.
  apply (uniqueness_limite f x); [|exact H].
  apply (epsilon_spec (inhabits 0) (fun l => derivable_pt_lim f x l)).
  now exists l.
Qed.

Lemma derivable_pt_lim_eq (f : R -> R) (x l l' : R) :
  derivable_pt_lim f x l -> l = l' -> derivable_pt_lim f x l'.
Proof. intros H <-. exact H. Qed.

(** A finite sum is derived term by term. *)
Lemma derivable_pt_lim_Rsum {A : Type} (F : A -> R -> R) (D : A -> R)
    (l : list A) (x : R) :
  (forall a, In a l -> derivable_pt_lim (F a) x (D a)) ->
  derivable_pt_lim (fun w => Rsum (map (fun a => F a w) l)) x (Rsum (map D l)).
Proof.
  induction l as [|a l IH]; intros H.
  - apply (derivable_pt_lim_const 0).
  - apply (derivable_pt_lim_plus (F a)
             (fun w => Rsum (map (fun a => F a w) l))).
    + apply H. now left.
    + apply IH. intros b Hb. apply H. now right.
Qed.

Lemma derivable_pt_lim_affine (a b v0 x : R) :
  derivable_pt_lim (fun w => a + b * (w - v0)) x b.
Proof.
  apply (derivable_pt_lim_eq _ _ (0 + b * (1 - 0))); [|lra].
  apply (derivable_pt_lim_plus (fct_cte a) (fun w => b * (w - v0))).
  - apply derivable_pt_lim_const.
  - apply (derivable_pt_lim_scal (fun w => w - v0)).
    apply (derivable_pt_lim_minus id (fct_cte v0)).
    + apply derivable_pt_lim_id.
    + apply derivable_pt_lim_const.
Qed.

Section Moved.

Variable A : nat -> nat -> R.
Variable s : nat -> R.
Variable k0 : nat.
Variable v0 : R.

Local Abbreviation z := (moved_logit A s k0 v0).

Lemma moved_logit_at (i k : nat) : z v0 i k = A i k.
Proof. unfold moved_logit. destruct (k =? k0)%nat; lra. Qed.

Lemma moved_logit_derivative (i k : nat) (x : R) :
  derivable_pt_lim (fun w => z w i k) x (if (k =? k0)%nat then s i else 0).
Proof.
  unfold moved_logit. destruct (k =? k0)%nat.
  - apply derivable_pt_lim_affine.
  - apply (derivable_pt_lim_ext (fct_cte (A i k + 0))); [reflexivity|].
    apply derivable_pt_lim_const.
Qed.

Lemma moved_exp_sum_pos (K : nat) (w : R) (i : nat) :
  (0 < K)%nat -> 0 < Rsum (map (fun c => exp (z w i c)) (seq 0 K)).
Proof.
  intros HK. rewrite <- (map_map (z w i) exp). apply exp_sum_pos.
  destruct K; [lia|]. simpl. congruence.
Qed.

Lemma moved_exp_sum_derivative (K : nat) (i : nat) :
  (k0 < K)%nat ->
  derivable_pt_lim (fun w => Rsum (map (fun c => exp (z w i c)) (seq 0 K)))
                   v0 (exp (A i k0) * s i).
Proof.
  intros Hk.
  apply (derivable_pt_lim_eq _ _
           (Rsum (map (fun c => exp (z v0 i c)
                                * (if (c =? k0)%nat then s i else 0))
                      (seq 0 K)))).
  - apply (derivable_pt_lim_Rsum (fun c w => exp (z w i c))).
    intros c _.
    apply (derivable_pt_lim_comp (fun w => z w i c) exp).
    + apply moved_logit_derivative.
    + apply derivable_pt_lim_exp.
  - rewrite (Rsum_map_ext _
               (fun c => if (c =? k0)%nat then exp (A i k0) * s i else 0)).
    + apply Rsum_indicator. lia.
    + intros c _. rewrite moved_logit_at.
      destruct (Nat.eqb_spec c k0) as [->|_]; lra.
Qed.

(** One term of the mean: minus the log-probability of the label. *)
Lemma moved_term_derivative (K : nat) (i yi : nat) :
  (k0 < K)%nat ->
  derivable_pt_lim
    (fun w => - ln (exp (z w i yi)
                    / Rsum (map (fun c => exp (z w i c)) (seq 0 K))))
    v0
    (s i * (exp (A i k0) / Rsum (map (fun c => exp (A i c)) (seq 0 K))
            - (if (yi =? k0)%nat then 1 else 0))).
Proof.
  intros Hk. assert (HK : (0 < K)%nat) by lia.
  set (S := fun w => Rsum (map (fun c => exp (z w i c)) (seq 0 K))).
  apply (derivable_pt_lim_ext (fun w => ln (S w) - z w i yi)).
  { intros w. pose proof (moved_exp_sum_pos K w i HK) as HS. fold (S w) in HS.
    fold (S w). unfold Rdiv.
    rewrite ln_mult, ln_exp, ln_Rinv; [lra|exact HS|apply exp_pos|].
    now apply Rinv_0_lt_compat. }
  assert (HS0 : S v0 = Rsum (map (fun c => exp (A i c)) (seq 0 K))).
  { unfold S. apply Rsum_map_ext. intros c _. now rewrite moved_logit_at. }
  apply (derivable_pt_lim_eq _ _
           (/ S v0 * (exp (A i k0) * s i)
            - (if (yi =? k0)%nat then s i else 0))).
  - apply (derivable_pt_lim_minus (fun w => ln (S w)) (fun w => z w i yi)).
    + apply (derivable_pt_lim_comp S ln).
      * apply moved_exp_sum_derivative. exact Hk.
      * apply derivable_pt_lim_ln. apply moved_exp_sum_pos. exact HK.
    + apply moved_logit_derivative.
  - rewrite HS0. destruct (yi =? k0)%nat; unfold Rdiv; lra.
Qed.

Lemma moved_cost_derivative (K : nat) (y : list Z) :
  (k0 < K)%nat ->
  (forall i, (i < length y)%nat -> (0 <= nth i y 0)%Z) ->
  derivable_pt_lim (moved_cost K y A s k0 v0) v0
    (Rsum (map (fun i =>
                  s i * (exp (A i k0)
                         / Rsum (map (fun c => exp (A i c)) (seq 0 K))
                         - one_hot y i k0))
               (seq 0 (length y)))
     / INR (length y)).
Proof.
  intros Hk Hy. unfold moved_cost.
  apply derivable_pt_lim_div_scal with
    (f := fun w =>
            Rsum (map (fun i =>
                         - ln (exp (z w i (Z.to_nat (nth i y 0%Z)))
                               / Rsum (map (fun c => exp (z w i c)) (seq 0 K))))
                      (seq 0 (length y)))).
  apply (derivable_pt_lim_eq _ _
           (Rsum (map (fun i =>
                         s i * (exp (A i k0)
                                / Rsum (map (fun c => exp (A i c)) (seq 0 K))
                                - (if (Z.to_nat (nth i y 0%Z) =? k0)%nat
                                   then 1 else 0)))
                      (seq 0 (length y))))).
  - apply (derivable_pt_lim_Rsum
             (fun i w =>
                - ln (exp (z w i (Z.to_nat (nth i y 0%Z)))
                      / Rsum (map (fun c => exp (z w i c)) (seq 0 K))))).
    intros i _. apply moved_term_derivative. exact Hk.
  - apply Rsum_map_ext. intros i Hi. apply in_seq in Hi.
    specialize (Hy i ltac:(lia)). unfold one_hot.
    destruct (Nat.eqb_spec (Z.to_nat (nth i y 0%Z)) k0) as [E|E];
      destruct (Z.eqb_spec (nth i y 0%Z) (Z.of_nat k0)) as [E'|E'];
      try reflexivity; exfalso; lia.
Qed.

End Moved.

(** *** The cost as a function of one entry of [W] or of [b] *)

Lemma set_nth_length {A : Type} (l : list A) (i : nat) (a : A) :
  length (T.set_nth l i a) = length l.
Proof.
  revert i. induction l as [|h l IH]; intros [|i]; simpl; auto.
Qed.

Lemma nth_set_nth {A : Type} (l : list A) (i0 i : nat) (a d : A) :
  (i0 < length l)%nat ->
  nth i (T.set_nth l i0 a) d = if (i =? i0)%nat then a else nth i l d.
Proof.
  revert i0 i. induction l as [|h l IH]; intros [|i0] [|i] H; simpl in *;
    try lia; try reflexivity.
  apply IH. lia.
Qed.

Lemma mnth_set_entry (M : matrix) (j0 k0 j k : nat) (w : R) :
  (j0 < length M)%nat -> (k0 < length (nth j0 M []))%nat ->
  mnth (T.set_entry M j0 k0 w) j k
  = if ((j =? j0) && (k =? k0))%nat then w else mnth M j k.
Proof.
  intros Hj Hk. unfold mnth, T.set_entry.
  rewrite nth_set_nth by exact Hj.
  destruct (Nat.eqb_spec j j0) as [->|_]; [|reflexivity].
  rewrite nth_set_nth by exact Hk. reflexivity.
Qed.

Lemma well_shaped_row (c : LR.t) (j : nat) :
  well_shaped c -> (j < LR.n_in c)%nat ->
  length (nth j (LR.W c) []) = LR.n_out c.
Proof.
  intros [HW [Hrow _]] Hj. apply Hrow. apply nth_In. lia.
Qed.

Lemma logit_moved_W (c : LR.t) (x : matrix) (j0 k0 : nat) (w : R) (i k : nat) :
  well_shaped c -> (j0 < LR.n_in c)%nat -> (k0 < LR.n_out c)%nat ->
  logit (LR.with_W c (T.set_entry (LR.W c) j0 k0 w)) x i k
  = moved_logit (logit c x) (fun i => mnth x i j0) k0 (mnth (LR.W c) j0 k0) w i k.
Proof.
  intros Hc Hj Hk. pose proof (well_shaped_row c j0 Hc Hj) as Hrow.
  destruct Hc as [HW _].
  unfold logit, moved_logit, LR.with_W. cbn [LR.W LR.b LR.n_in LR.n_out].
  rewrite (Rsum_map_ext _
             (fun j => mnth x i j * mnth (LR.W c) j k
                       + (if (j =? j0)%nat
                          then (if (k =? k0)%nat
                                then mnth x i j0 * (w - mnth (LR.W c) j0 k0)
                                else 0)
                          else 0))).
  - rewrite Rsum_map_plus, Rsum_indicator by lia. lra.
  - intros j _. rewrite mnth_set_entry by lia.
    destruct (Nat.eqb_spec j j0) as [->|_]; cbn [andb]; [|lra].
    destruct (Nat.eqb_spec k k0) as [->|_]; lra.
Qed.

Lemma logit_moved_b (c : LR.t) (x : matrix) (k0 : nat) (w : R) (i k : nat) :
  well_shaped c -> (k0 < LR.n_out c)%nat ->
  logit (LR.with_b c (T.set_nth (LR.b c) k0 w)) x i k
  = moved_logit (logit c x) (fun _ => 1) k0 (vnth (LR.b c) k0) w i k.
Proof.
  intros [_ [_ Hb]] Hk.
  unfold logit, moved_logit, LR.with_b. cbn [LR.W LR.b LR.n_in LR.n_out].
  unfold vnth. rewrite nth_set_nth by lia.
  destruct (Nat.eqb_spec k k0) as [->|_]; lra.
Qed.

(** The cost of a model whose scores are those of [c] moved in one entry. *)
Lemma cost_moved (c c' : LR.t) (x : matrix) (y : list Z)
    (s : nat -> R) (k0 : nat) (v0 w : R) :
  LR.n_out c' = LR.n_out c ->
  (forall i k, logit c' x i k = moved_logit (logit c x) s k0 v0 w i k) ->
  length y = length x ->
  (forall i, (i < length y)%nat -> (0 <= nth i y 0 < Z.of_nat (LR.n_out c))%Z) ->
  cost c' x y = moved_cost (LR.n_out c) y (logit c x) s k0 v0 w.
Proof.
  intros Hout Hlogit Hlen Hy. unfold cost, moved_cost.
  rewrite ClassifierTheorems.negative_log_likelihood_of_model
    by (rewrite ?Hout; assumption).
  f_equal. apply Rsum_map_ext. intros i Hi. apply in_seq in Hi.
  specialize (Hy i ltac:(lia)).
  rewrite p_y_given_x_entry by (rewrite ?Hout; lia).
  rewrite Hout, Hlogit. do 3 f_equal.
  apply Rsum_map_ext. intros k _. now rewrite Hlogit.
Qed.

Lemma cost_derivative_W (c : LR.t) (x : matrix) (y : list Z) (j k : nat) :
  well_shaped c -> length y = length x ->
  (forall i, (i < length y)%nat -> (0 <= nth i y 0 < Z.of_nat (LR.n_out c))%Z) ->
  (j < LR.n_in c)%nat -> (k < LR.n_out c)%nat ->
  derivable_pt_lim
    (fun w => cost (LR.with_W c (T.set_entry (LR.W c) j k w)) x y)
    (mnth (LR.W c) j k)
    (Rsum (map (fun i => mnth x i j
                         * (mnth (LR.p_y_given_x c x) i k - one_hot y i k))
               (seq 0 (length y)))
     / INR (length y)).
Proof.
  intros Hc Hlen Hy Hj Hk.
  apply (derivable_pt_lim_ext
           (moved_cost (LR.n_out c) y (logit c x) (fun i => mnth x i j) k
                       (mnth (LR.W c) j k))).
  { intros w. symmetry. apply cost_moved; try assumption; [reflexivity|].
    intros i k'. now apply logit_moved_W. }
  apply (derivable_pt_lim_eq _ _ _ _
           (moved_cost_derivative _ _ _ _ (LR.n_out c) y Hk
              (fun i Hi => proj1 (Hy i Hi)))).
  f_equal. apply Rsum_map_ext. intros i Hi. apply in_seq in Hi.
  rewrite p_y_given_x_entry by lia. reflexivity.
Qed.

Lemma cost_derivative_b (c : LR.t) (x : matrix) (y : list Z) (k : nat) :
  well_shaped c -> length y = length x ->
  (forall i, (i < length y)%nat -> (0 <= nth i y 0 < Z.of_nat (LR.n_out c))%Z) ->
  (k < LR.n_out c)%nat ->
  derivable_pt_lim
    (fun w => cost (LR.with_b c (T.set_nth (LR.b c) k w)) x y)
    (vnth (LR.b c) k)
    (Rsum (map (fun i => mnth (LR.p_y_given_x c x) i k - one_hot y i k)
               (seq 0 (length y)))
     / INR (length y)).
Proof.
  intros Hc Hlen Hy Hk.
  apply (derivable_pt_lim_ext
           (moved_cost (LR.n_out c) y (logit c x) (fun _ => 1) k
                       (vnth (LR.b c) k))).
  { intros w. symmetry. apply cost_moved; try assumption; [reflexivity|].
    intros i k'. now apply logit_moved_b. }
  apply (derivable_pt_lim_eq _ _ _ _
           (moved_cost_derivative _ _ _ _ (LR.n_out c) y Hk
              (fun i Hi => proj1 (Hy i Hi)))).
  f_equal. apply Rsum_map_ext. intros i Hi. apply in_seq in Hi.
  rewrite p_y_given_x_entry by lia. lra.
Qed.

Lemma g_W_closed_form (c : LR.t) (x : matrix) (y : list Z) :
  well_shaped c -> length y = length x ->
  (forall i, (i < length y)%nat -> (0 <= nth i y 0 < Z.of_nat (LR.n_out c))%Z) ->
  g_W c x y = closed_form_g_W c x y.
Proof.
  intros Hc Hlen Hy. unfold g_W, T.grad_matrix, closed_form_g_W. cbv zeta.
  destruct Hc as [HW Hrest]. rewrite HW.
  apply map_ext_in. intros j Hj. apply in_seq in Hj.
  rewrite (well_shaped_row c j (conj HW Hrest)) by lia.
  apply map_ext_in. intros k Hk. apply in_seq in Hk.
  apply derivative_at_unique.
  apply cost_derivative_W; try assumption; try lia. exact (conj HW Hrest).
Qed.

Lemma g_b_closed_form (c : LR.t) (x : matrix) (y : list Z) :
  well_shaped c -> length y = length x ->
  (forall i, (i < length y)%nat -> (0 <= nth i y 0 < Z.of_nat (LR.n_out c))%Z) ->
  g_b c x y = closed_form_g_b c x y.
Proof.
  intros Hc Hlen Hy. unfold g_b, T.grad_vector, closed_form_g_b. cbv zeta.
  rewrite (proj2 (proj2 Hc)).
  apply map_ext_in. intros k Hk. apply in_seq in Hk.
  apply derivative_at_unique.
  apply cost_derivative_b; try assumption; lia.
Qed.

End GradientFacts.

Module GradientTheorems.
Import Numpy NumpyFacts Spec ClassifierFacts SGD GradientFacts.

Lemma mnth_table (E : nat -> nat -> R) (r c j k : nat) :
  (j < r)%nat -> (k < c)%nat ->
  mnth (map (fun j => map (fun k => E j k) (seq 0 c)) (seq 0 r)) j k = E j k.
Proof.
  intros Hj Hk. unfold mnth.
  rewrite (@nth_map_in nat (list R) _ (seq 0 r) j [] O)
    by (rewrite length_seq; lia).
  rewrite (nth_map_in _ (seq 0 c) k 0 O) by (rewrite length_seq; lia).
  now rewrite !seq_nth by lia.
Qed.

Lemma vnth_table (E : nat -> R) (c k : nat) :
  (k < c)%nat -> vnth (map E (seq 0 c)) k = E k.
Proof.
  intros Hk. unfold vnth.
  rewrite (nth_map_in _ (seq 0 c) k 0 O) by (rewrite length_seq; lia).
  now rewrite seq_nth by lia.
Qed.

Lemma vnth_axpy (a g : vector) (c : R) (k : nat) :
  length g = length a -> (k < length a)%nat ->
  vnth (T.axpy_vector a c g) k = vnth a k - c * vnth g k.
Proof.
  intros Hlen Hk. unfold vnth, T.axpy_vector.
  rewrite (nth_map_in _ (combine a g) k 0 (0, 0))
    by (rewrite length_combine; lia).
  rewrite combine_nth by lia. reflexivity.
Qed.

Lemma mnth_axpy (A G : matrix) (c : R) (j k : nat) :
  length G = length A -> (j < length A)%nat ->
  length (nth j G []) = length (nth j A []) ->
  (k < length (nth j A []))%nat ->
  mnth (T.axpy_matrix A c G) j k = mnth A j k - c * mnth G j k.
Proof.
  intros Hlen Hj Hrow Hk. unfold mnth, T.axpy_matrix.
  rewrite (@nth_map_in (vector * vector) vector _ (combine A G) j [] ([], []))
    by (rewrite length_combine; lia).
  rewrite combine_nth by lia. cbn [fst snd].
  now apply vnth_axpy.
Qed.

(** C3: on a batch [x] with labels [y] that are class indices, the
    partial derivatives of the mean negative log-likelihood in the entries
    of [W] and [b] are the entries of [X^T (P - Y_onehot) / batch_size] and
    of the column mean of [P - Y_onehot]; these are the gradients [g_W] and
    [g_b] of the driver, and the update replaces [W] by
    [W - learning_rate * g_W] and [b] by [b - learning_rate * g_b]. *)
Theorem gradient_is_closed_form_and_update_is_descent_step
    (learning_rate : R) (c : LR.t) (x : matrix) (y : list Z) :
  well_shaped c ->
  length y = length x ->
  (forall i, (i < length y)%nat -> (0 <= nth i y 0 < Z.of_nat (LR.n_out c))%Z) ->
  (forall j k, (j < LR.n_in c)%nat -> (k < LR.n_out c)%nat ->
     derivable_pt_lim
       (fun w => cost (LR.with_W c (T.set_entry (LR.W c) j k w)) x y)
       (mnth (LR.W c) j k)
       (mnth (closed_form_g_W c x y) j k))
  /\ (forall k, (k < LR.n_out c)%nat ->
        derivable_pt_lim
          (fun w => cost (LR.with_b c (T.set_nth (LR.b c) k w)) x y)
          (vnth (LR.b c) k)
          (vnth (closed_form_g_b c x y) k))
  /\ g_W c x y = closed_form_g_W c x y
  /\ g_b c x y = closed_form_g_b c x y
  /\ (forall j k, (j < LR.n_in c)%nat -> (k < LR.n_out c)%nat ->
        mnth (LR.W (updates learning_rate c x y)) j k
        = mnth (LR.W c) j k - learning_rate * mnth (closed_form_g_W c x y) j k)
  /\ (forall k, (k < LR.n_out c)%nat ->
        vnth (LR.b (updates learning_rate c x y)) k
        = vnth (LR.b c) k - learning_rate * vnth (closed_form_g_b c x y) k).
Proof.
  intros Hc Hlen Hy.
  pose proof (g_W_closed_form c x y Hc Hlen Hy) as HgW.
  pose proof (g_b_closed_form c x y Hc Hlen Hy) as Hgb.
  split; [|split; [|split; [exact HgW|split; [exact Hgb|split]]]].
  - intros j k Hj Hk. unfold closed_form_g_W. cbv zeta.
    rewrite (mnth_table _ _ _ j k Hj Hk).
    now apply cost_derivative_W.
  - intros k Hk. unfold closed_form_g_b. cbv zeta.
    rewrite (vnth_table _ _ k Hk).
    now apply cost_derivative_b.
  - intros j k Hj Hk. unfold updates. cbn [LR.W]. rewrite HgW.
    pose proof (well_shaped_row c j Hc Hj) as Hrow.
    destruct Hc as [HW _].
    assert (HrowG : length (nth j (closed_form_g_W c x y) []) = LR.n_out c).
    { unfold closed_form_g_W. cbv zeta.
      rewrite (@nth_map_in nat (list R) _ (seq 0 (LR.n_in c)) j [] O)
        by (rewrite length_seq; lia).
      now rewrite length_map, length_seq. }
    apply mnth_axpy.
    + unfold closed_form_g_W. cbv zeta. rewrite length_map, length_seq. lia.
    + lia.
    + rewrite HrowG. lia.
    + rewrite Hrow. exact Hk.
  - intros k Hk. unfold updates. cbn [LR.b]. rewrite Hgb.
    destruct Hc as [_ [_ Hb]].
    apply vnth_axpy.
    + unfold closed_form_g_b. cbv zeta. rewrite length_map, length_seq. lia.
    + lia.
Qed.

Lemma gradient_is_closed_form_and_update_is_descent_step_witness :
  well_shaped (LR.init 2 2)
  /\ g_W (LR.init 2 2) [[1; 1]] [0%Z] = closed_form_g_W (LR.init 2 2) [[1; 1]] [0%Z]
  /\ g_b (LR.init 2 2) [[1; 1]] [0%Z] = closed_form_g_b (LR.init 2 2) [[1; 1]] [0%Z].
Proof.
  assert (Hc : well_shaped (LR.init 2 2)).
  { unfold well_shaped. simpl. repeat split.
    intros row [<-|[<-|[]]]; reflexivity. }
  split; [exact Hc|].
  destruct (gradient_is_closed_form_and_update_is_descent_step
              (1 / 10) (LR.init 2 2) [[1; 1]] [0%Z] Hc) as [_ [_ [HW [Hb _]]]].
  - reflexivity.
  - intros [|i] Hi; simpl in *; lia.
  - split; [exact HW|exact Hb].
Defined.

End GradientTheorems.

(* ================================================================= *)
(** * Further properties of the code *)

(** ** The compiled functions: what they accept and how they fail *)

Module CompiledFacts.
Import Numpy NumpyFacts Spec ClassifierFacts SGD BatchFacts.

Lemma concat_chunks (c r : nat) (flat : list R) :
  length flat = (r * c)%nat -> concat (chunks c r flat) = flat.
Proof.
  revert flat. induction r as [|r IH]; intros flat H.
  - destruct flat; [reflexivity|simpl in H; lia].
  - cbn [chunks concat]. rewrite IH.
    + apply firstn_skipn.
    + rewrite length_skipn. lia.
Qed.

Lemma chunks_rows (c r : nat) (flat : list R) (row : list R) :
  length flat = (r * c)%nat -> In row (chunks c r flat) -> length row = c.
Proof.
  revert flat. induction r as [|r IH]; intros flat H Hrow.
  - contradiction.
  - cbn [chunks] in Hrow. destruct Hrow as [<-|Hrow].
    + rewrite length_firstn. lia.
    + apply (IH (skipn c flat)); [|exact Hrow]. rewrite length_skipn. lia.
Qed.

Lemma chunks_concat (x : matrix) (c : nat) :
  (forall row, In row x -> length row = c) ->
  chunks c (length x) (concat x) = x.
Proof.
  induction x as [|row x IH]; intros H.
  - reflexivity.
  - cbn [length concat chunks].
    assert (Hrow : length row = c) by (apply H; now left).
    rewrite firstn_app, skipn_app, <- Hrow.
    rewrite firstn_all, skipn_all, Nat.sub_diag.
    cbn [firstn skipn app]. rewrite app_nil_r. f_equal.
    rewrite Hrow. apply IH. intros r Hr. apply H. now right.
Qed.

Lemma reshape_ok (r c : nat) (a : matrix) :
  length (concat a) = (r * c)%nat ->
  reshape r c a = ret (chunks c r (concat a)).
Proof.
  intros H. unfold reshape. cbv zeta.
  now rewrite (proj2 (Nat.eqb_eq _ _) H).
Qed.

Lemma reshape_uniform (x : matrix) (c : nat) :
  (forall row, In row x -> length row = c) ->
  reshape (length x) c x = ret x.
Proof.
  intros H. rewrite reshape_ok by (now apply concat_length_uniform).
  f_equal. now apply chunks_concat.
Qed.

Lemma reshape_fails (r c : nat) (a : matrix) :
  length (concat a) <> (r * c)%nat -> reshape r c a = raise ValueError.
Proof.
  intros H. unfold reshape. cbv zeta.
  now rewrite (proj2 (Nat.eqb_neq _ _) H).
Qed.

Lemma classifier_input_unfold (x : matrix) :
  classifier_input x = reshape 500 784 x.
Proof. reflexivity. Qed.

Lemma errors_function_fits (set_x : matrix) (set_y : list Z) (off : Z) (c : LR.t) :
  batch_fits set_x off -> labels_fit set_y off ->
  exists input,
    classifier_input (minibatch set_x off) = ret input
    /\ errors_function set_x set_y off c
       = ret (T.mean (T.neq (LR.y_pred c input) (minibatch set_y off))).
Proof.
  unfold batch_fits, labels_fit. intros Hx Hy.
  pose proof (reshape_ok 500 784 _ Hx) as Hr.
  rewrite <- classifier_input_unfold in Hr.
  eexists. split; [exact Hr|].
  unfold errors_function. rewrite Hr, bind_ret. cbv zeta.
  rewrite y_pred_length, chunks_length, Hy, Nat.eqb_refl.
  apply ClassifierTheorems.errors_integer_vector; reflexivity.
Qed.

Lemma errors_function_misfit (set_x : matrix) (set_y : list Z) (off : Z) (c : LR.t) :
  ~ (batch_fits set_x off /\ labels_fit set_y off) ->
  errors_function set_x set_y off c = raise ValueError.
Proof.
  unfold batch_fits, labels_fit. intros H. unfold errors_function.
  destruct (Nat.eq_dec (length (concat (minibatch set_x off))) (500 * 784))
    as [Hx|Hx].
  - pose proof (reshape_ok 500 784 _ Hx) as Hr.
    rewrite <- classifier_input_unfold in Hr.
    rewrite Hr, bind_ret. cbv zeta.
    rewrite y_pred_length, chunks_length.
    destruct (Nat.eqb_spec 500 (length (minibatch set_y off))) as [E|E].
    + exfalso. apply H. split; [exact Hx|now symmetry].
    + reflexivity.
  - pose proof (reshape_fails 500 784 _ Hx) as Hr.
    rewrite <- classifier_input_unfold in Hr.
    rewrite Hr. reflexivity.
Qed.

Lemma forallb_index_ok (K : nat) (y : list Z) :
  forallb (index_ok K) y = true
  <-> forall l, In l y -> (- Z.of_nat K <= l < Z.of_nat K)%Z.
Proof.
  rewrite forallb_forall. unfold index_ok. split; intros H l Hl.
  - specialize (H l Hl). apply andb_true_iff in H. lia.
  - specialize (H l Hl). apply andb_true_iff. lia.
Qed.

End CompiledFacts.

Module CompiledTheorems.
Import Numpy NumpyFacts Spec ClassifierFacts SGD BatchFacts CompiledFacts.

(** X1: the [reshape] in front of the classifier accepts a slice exactly
    when it holds 500 * 784 entries and raises [ValueError] otherwise; what
    it returns has 500 rows of 784 entries holding the same entries in
    row-major order, and is the slice itself when the slice already has
    that shape. *)
Theorem classifier_input_reshapes (x : matrix) :
  (length (concat x) <> (500 * 784)%nat -> classifier_input x = raise ValueError)
  /\ (forall input, classifier_input x = ret input ->
        length (concat x) = (500 * 784)%nat
        /\ length input = 500%nat
        /\ (forall row, In row input -> length row = 784%nat)
        /\ concat input = concat x)
  /\ (length x = 500%nat -> (forall row, In row x -> length row = 784%nat) ->
      classifier_input x = ret x).
Proof.
  rewrite classifier_input_unfold. split; [|split].
  - apply reshape_fails.
  - intros input H.
    destruct (Nat.eq_dec (length (concat x)) (500 * 784)) as [Hx|Hx].
    + rewrite (reshape_ok _ _ _ Hx) in H. apply ret_inj in H. subst input.
      split; [exact Hx|]. split; [apply chunks_length|]. split.
      * intros row Hrow. exact (chunks_rows _ _ _ _ Hx Hrow).
      * now apply concat_chunks.
    + rewrite (reshape_fails _ _ _ Hx) in H. discriminate.
  - intros Hlen Hrows.
    pose proof (reshape_uniform x 784 Hrows) as H. now rewrite Hlen in H.
Qed.

Lemma classifier_input_reshapes_witness :
  classifier_input (fst black_split) = ret (fst black_split).
Proof.
  apply (classifier_input_reshapes (fst black_split)).
  - apply repeat_length.
  - intros row Hrow. apply repeat_spec in Hrow. rewrite Hrow. apply repeat_length.
Defined.

(** X2: [validate_model] and [test_model] return a fraction in [0, 1]
    exactly when the slice of images holds 500 * 784 entries and the slice
    of labels 500; in every other case (an offset past the end, a short
    last slice, images of another width) they raise [ValueError], and no
    other exception. *)
Theorem validate_and_test_model_outcomes (minibatch_offset : Z) (s : shared) :
  (batch_fits (valid_set_x s) minibatch_offset ->
   labels_fit (valid_set_y s) minibatch_offset ->
   exists v, validate_model minibatch_offset s = ret v /\ 0 <= v <= 1)
  /\ (~ (batch_fits (valid_set_x s) minibatch_offset
         /\ labels_fit (valid_set_y s) minibatch_offset) ->
      validate_model minibatch_offset s = raise ValueError)
  /\ (batch_fits (test_set_x s) minibatch_offset ->
      labels_fit (test_set_y s) minibatch_offset ->
      exists v, test_model minibatch_offset s = ret v /\ 0 <= v <= 1)
  /\ (~ (batch_fits (test_set_x s) minibatch_offset
         /\ labels_fit (test_set_y s) minibatch_offset) ->
      test_model minibatch_offset s = raise ValueError).
Proof.
  unfold validate_model, test_model. repeat split.
  - intros Hx Hy.
    destruct (errors_function_fits _ _ _ (classifier s) Hx Hy) as [input [_ H]].
    eexists. split; [exact H|]. apply (errors_function_bounds _ _ _ _ _ H).
  - apply errors_function_misfit.
  - intros Hx Hy.
    destruct (errors_function_fits _ _ _ (classifier s) Hx Hy) as [input [_ H]].
    eexists. split; [exact H|]. apply (errors_function_bounds _ _ _ _ _ H).
  - apply errors_function_misfit.
Qed.

End CompiledTheorems.

Module CompiledWitnesses.
Import Numpy NumpyFacts Spec ClassifierFacts SGD BatchFacts CompiledFacts
       CompiledTheorems.

Lemma one_batch_fits (set_x : matrix) (set_y : list Z) :
  one_batch set_x set_y -> batch_fits set_x 0 /\ labels_fit set_y 0.
Proof.
  intros [Hx [Hrow Hy]]. unfold batch_fits, labels_fit.
  rewrite !minibatch_whole by assumption. split; [|exact Hy].
  rewrite (concat_length_uniform set_x 784 Hrow), Hx. reflexivity.
Qed.

Lemma black_fits : batch_fits (fst black_split) 0 /\ labels_fit (snd black_split) 0.
Proof. apply one_batch_fits. exact LoopTheorems.black_one_batch. Qed.

Lemma validate_and_test_model_outcomes_witness :
  exists v, validate_model 0 (initial_store black_mnist) = ret v /\ 0 <= v <= 1.
Proof.
  destruct (validate_and_test_model_outcomes 0 (initial_store black_mnist))
    as [H _].
  apply H.
  - exact (proj1 black_fits).
  - exact (proj2 black_fits).
Defined.

End CompiledWitnesses.

(** ** More on the classifier *)

Module ClassifierMoreFacts.
Import Numpy NumpyFacts Spec ClassifierFacts.







Lemma nth_repeat_or_default {A : Type} (x d : A) (n j : nat) :
  nth j (repeat x n) d = if (j <? n)%nat then x else d.
Proof.
  revert j. induction n as [|n IH]; intros [|j]; simpl; try reflexivity.
  apply IH.
Qed.

Lemma mnth_zeros2 (r c j k : nat) : mnth (zeros2 r c) j k = 0.
Proof.
  unfold mnth, zeros2, zeros. rewrite nth_repeat_or_default.
  destruct (j <? r)%nat.
  - rewrite nth_repeat_or_default. now destruct (k <? c)%nat.
  - now destruct k.
Qed.

Lemma vnth_zeros (c k : nat) : vnth (zeros c) k = 0.
Proof.
  unfold vnth, zeros. rewrite nth_repeat_or_default. now destruct (k <? c)%nat.
Qed.

Lemma Rsum_map_const {A : Type} (v : R) (l : list A) :
  Rsum (map (fun _ => v) l) = INR (length l) * v.
Proof.
  induction l as [|a l IH].
  - simpl. unfold Rsum. simpl. lra.
  - change (length (a :: l)) with (S (length l)). rewrite S_INR.
    unfold Rsum in *. cbn [map fold_right]. rewrite IH. lra.
Qed.

Lemma logit_init (n_in n_out : nat) (input : matrix) (i k : nat) :
  logit (LR.init n_in n_out) input i k = 0.
Proof.
  unfold logit, LR.init. cbn [LR.W LR.b LR.n_in].
  rewrite vnth_zeros.
  rewrite (Rsum_map_ext _ (fun _ => 0)).
  - rewrite Rsum_map_const. lra.
  - intros j _. rewrite mnth_zeros2. lra.
Qed.

Lemma argmax_constant (l : list R) :
  (forall j, (j < length l)%nat -> nth j l 0 = nth O l 0) -> argmax l = O.
Proof.
  intros H. destruct l as [|v t] eqn:E; [reflexivity|]. rewrite <- E in *.
  assert (Hne : l <> []) by (rewrite E; discriminate).
  destruct (ClassifierTheorems.argmax_spec l Hne) as [Hlt [_ Hfirst]].
  destruct (argmax l) as [|m] eqn:Em; [reflexivity|].
  specialize (Hfirst O ltac:(lia)). rewrite (H (S m) Hlt) in Hfirst. lra.
Qed.

Lemma map_constant {A B : Type} (f : A -> B) (v : B) (l : list A) :
  (forall a, In a l -> f a = v) -> map f l = repeat v (length l).
Proof.
  induction l as [|a l IH]; intros H; [reflexivity|].
  cbn [map length repeat]. rewrite (H a) by now left.
  f_equal. apply IH. intros a' Ha'. apply H. now right.
Qed.


End ClassifierMoreFacts.

Module ClassifierMoreTheorems.
Import Numpy NumpyFacts Spec ClassifierFacts ClassifierMoreFacts.



(** X5: with the parameters [__init__] allocates (all zero), every
    class gets probability [1 / n_out] on every example, every prediction
    is class 0, and the cost of a non-empty batch with labels in
    [0, n_out) is [log n_out]. *)
Theorem zero_parameters_predict_uniformly (n_in n_out : nat) (input : matrix) :
  (0 < n_out)%nat ->
  let self := LR.init n_in n_out in
  (forall i k, (i < length input)%nat -> (k < n_out)%nat ->
     mnth (LR.p_y_given_x self input) i k = 1 / INR n_out)
  /\ LR.y_pred self input = repeat 0%Z (length input)
  /\ (forall y, length y = length input -> input <> [] ->
        (forall i, (i < length y)%nat -> (0 <= nth i y 0 < Z.of_nat n_out)%Z) ->
        LR.negative_log_likelihood self input y = ln (INR n_out)).
Proof.
  intros HK. cbv zeta.
  assert (HKR : 0 < INR n_out) by now apply lt_0_INR.
  assert (Hentry : forall i k, (i < length input)%nat -> (k < n_out)%nat ->
            mnth (LR.p_y_given_x (LR.init n_in n_out) input) i k = 1 / INR n_out).
  { intros i k Hi Hk. rewrite p_y_given_x_entry by assumption.
    cbn [LR.init LR.n_out]. rewrite logit_init.
    rewrite (Rsum_map_ext _ (fun _ => exp 0))
      by (intros c _; now rewrite logit_init).
    rewrite Rsum_map_const, length_seq, exp_0. field. lra. }
  split; [exact Hentry|]. split.
  - unfold LR.y_pred, T.argmax_axis1.
    rewrite <- (p_y_given_x_length (LR.init n_in n_out) input).
    apply map_constant. intros row Hrow.
    destruct (In_nth _ _ [] Hrow) as [i [Hi <-]].
    rewrite p_y_given_x_length in Hi.
    rewrite argmax_constant; [reflexivity|].
    intros j Hj. rewrite p_y_given_x_row_length in Hj by exact Hi.
    cbn [LR.init LR.n_out] in Hj.
    change (mnth (LR.p_y_given_x (LR.init n_in n_out) input) i j
            = mnth (LR.p_y_given_x (LR.init n_in n_out) input) i O).
    now rewrite !Hentry by lia.
  - intros y Hlen Hne Hy.
    rewrite ClassifierTheorems.negative_log_likelihood_of_model by assumption.
    rewrite (Rsum_map_ext _ (fun _ => ln (INR n_out))).
    + rewrite Rsum_map_const, length_seq.
      assert (0 < INR (length y)).
      { apply lt_0_INR. rewrite Hlen. destruct input; [congruence|simpl; lia]. }
      field. lra.
    + intros i Hi. apply in_seq in Hi. specialize (Hy i ltac:(lia)).
      rewrite Hentry by lia. unfold Rdiv. rewrite Rmult_1_l, ln_Rinv by exact HKR.
      lra.
Qed.

Lemma zero_parameters_predict_uniformly_witness :
  LR.y_pred (LR.init 2 2) [[1; 1]] = repeat 0%Z (length [[1; 1]]).
Proof.
  apply (zero_parameters_predict_uniformly 2 2 [[1; 1]]). lia.
Defined.



End ClassifierMoreTheorems.

(** ** More on the loop *)

Module LoopMoreFacts.
Import Numpy NumpyFacts Spec ClassifierFacts SGD BatchFacts BatchTheorems
       LoopFacts CompiledFacts.

Lemma slice_incl {A : Type} (l : list A) (start stop : Z) (a : A) :
  In a (slice l start stop) -> In a l.
Proof.
  unfold slice. intros H.
  rewrite <- (firstn_skipn (Z.to_nat start) l). apply in_or_app. right.
  rewrite <- (firstn_skipn (Z.to_nat (stop - start)) (skipn (Z.to_nat start) l)).
  apply in_or_app. now left.
Qed.

Lemma minibatch_length {A : Type} (l : list A) (i : Z) :
  (0 <= i)%Z -> ((i + 1) * batch_size <= Z.of_nat (length l))%Z ->
  length (minibatch l (i * batch_size)) = 500%nat.
Proof.
  intros Hi Hl. unfold minibatch, slice.
  rewrite length_firstn, length_skipn. unfold batch_size in *. lia.
Qed.

(** Every batch that a sweep or a training step asks for fits. *)
Lemma well_formed_batch_fits (set_x : matrix) (set_y : list Z) (i : Z) :
  well_formed_split (set_x, set_y) -> (0 <= i < n_batches set_x)%Z ->
  batch_fits set_x (i * batch_size) /\ labels_fit set_y (i * batch_size).
Proof.
  intros [Hrow Hlen] Hi. cbn [fst snd] in *.
  pose proof (n_batches_bounds set_x) as Hb. cbv zeta in Hb.
  unfold batch_fits, labels_fit. split.
  - rewrite (concat_length_uniform _ 784).
    + rewrite minibatch_length; [reflexivity|lia|]. unfold batch_size in *. lia.
    + intros row Hin. apply Hrow. exact (slice_incl _ _ _ _ Hin).
  - apply minibatch_length; [lia|]. rewrite Hlen. unfold batch_size in *. lia.
Qed.

Lemma mapM_total {A B : Type} (f : A -> result B) (l : list A) :
  (forall a, In a l -> exists b, f a = ret b) -> exists bs, mapM f l = ret bs.
Proof.
  induction l as [|a l IH]; intros H.
  - exists []. reflexivity.
  - destruct (H a (or_introl eq_refl)) as [b Hb].
    destruct IH as [bs Hbs]; [intros a' Ha'; apply H; now right|].
    exists (b :: bs). cbn [mapM]. now rewrite Hb, bind_ret, Hbs, bind_ret.
Qed.

Lemma sweep_total (f : Z -> shared -> result R) (set_x : matrix)
    (set_y : list Z) (s : shared) :
  (forall off, f off s = errors_function set_x set_y off (classifier s)) ->
  well_formed_split (set_x, set_y) ->
  exists l,
    (losses <- mapM (fun i => f (i * batch_size)%Z s) (xrange (n_batches set_x)) ;;
     ret (numpy_mean losses)) = ret l.
Proof.
  intros Hf Hwf.
  destruct (mapM_total (fun i => f (i * batch_size)%Z s)
              (xrange (n_batches set_x))) as [bs Hbs].
  - intros i Hi. apply in_xrange in Hi. rewrite Hf.
    destruct (well_formed_batch_fits _ _ i Hwf Hi) as [Hx Hy].
    destruct (errors_function_fits _ _ _ (classifier s) Hx Hy) as [input [_ H]].
    eexists. exact H.
  - rewrite Hbs, bind_ret. eexists. reflexivity.
Qed.

Lemma train_model_misfit (learning_rate : R) (off : Z) (s : shared) :
  ~ batch_fits (train_set_x s) off ->
  train_model learning_rate off s = raise ValueError.
Proof.
  unfold batch_fits, train_model. intros Hx.
  pose proof (reshape_fails 500 784 _ Hx) as Hr.
  rewrite <- classifier_input_unfold in Hr. rewrite Hr. reflexivity.
Qed.

Lemma train_model_fits (learning_rate : R) (off : Z) (s : shared) :
  batch_fits (train_set_x s) off ->
  (forall l, In l (minibatch (train_set_y s) off) ->
     (- Z.of_nat (LR.n_out (classifier s)) <= l
      < Z.of_nat (LR.n_out (classifier s)))%Z) ->
  exists x,
    classifier_input (minibatch (train_set_x s) off) = ret x
    /\ length x = 500%nat
    /\ train_model learning_rate off s
       = ret (cost (classifier s) x (minibatch (train_set_y s) off),
              with_classifier s
                (updates learning_rate (classifier s) x
                         (minibatch (train_set_y s) off))).
Proof.
  unfold batch_fits, train_model. intros Hx Hy.
  pose proof (reshape_ok 500 784 _ Hx) as Hr.
  rewrite <- classifier_input_unfold in Hr.
  eexists. split; [exact Hr|]. split; [apply chunks_length|].
  rewrite Hr, bind_ret. cbv zeta.
  now rewrite (proj2 (forallb_index_ok _ _) Hy).
Qed.

(** *** The shape of the parameters *)

Lemma grad_matrix_length (f : matrix -> R) (W : matrix) :
  length (T.grad_matrix f W) = length W.
Proof. unfold T.grad_matrix. now rewrite length_map, length_seq. Qed.

Lemma grad_matrix_row_length (f : matrix -> R) (W : matrix) (j : nat) :
  (j < length W)%nat ->
  length (nth j (T.grad_matrix f W) []) = length (nth j W []).
Proof.
  intros Hj. unfold T.grad_matrix.
  rewrite (@nth_map_in nat (list R) _ (seq 0 (length W)) j [] O)
    by (rewrite length_seq; lia).
  rewrite length_map, length_seq. now rewrite seq_nth by lia.
Qed.

Lemma axpy_vector_length (a g : vector) (c : R) :
  length g = length a -> length (T.axpy_vector a c g) = length a.
Proof.
  intros H. unfold T.axpy_vector. rewrite length_map, length_combine, H.
  apply Nat.min_id.
Qed.

Lemma updates_well_shaped (learning_rate : R) (c : LR.t) (x : matrix) (y : list Z) :
  well_shaped c -> well_shaped (updates learning_rate c x y).
Proof.
  intros [HW [Hrow Hb]]. unfold well_shaped, updates.
  cbn [LR.W LR.b LR.n_in LR.n_out]. split; [|split].
  - unfold T.axpy_matrix, g_W.
    rewrite length_map, length_combine, grad_matrix_length, Nat.min_id.
    exact HW.
  - intros row Hin. unfold T.axpy_matrix in Hin.
    apply in_map_iff in Hin. destruct Hin as [[w g] [<- Hin]]. cbn [fst snd].
    destruct (In_nth _ _ ([], []) Hin) as [j [Hj Hnth]].
    rewrite length_combine in Hj. unfold g_W in Hj, Hnth.
    rewrite grad_matrix_length, Nat.min_id in Hj.
    rewrite combine_nth in Hnth by (now rewrite grad_matrix_length).
    injection Hnth as Ew Eg.
    rewrite axpy_vector_length.
    + rewrite <- Ew. apply Hrow. apply nth_In. exact Hj.
    + rewrite <- Ew, <- Eg. now apply grad_matrix_row_length.
  - apply eq_trans with (2 := Hb). apply axpy_vector_length.
    unfold g_b, T.grad_vector. now rewrite length_map, length_seq.
Qed.

Lemma init_well_shaped (n_in n_out : nat) : well_shaped (LR.init n_in n_out).
Proof.
  unfold well_shaped, LR.init, zeros2, zeros. cbn [LR.W LR.b LR.n_in LR.n_out].
  split; [apply repeat_length|]. split; [|apply repeat_length].
  intros row Hrow. apply repeat_spec in Hrow. rewrite Hrow. apply repeat_length.
Qed.

(** *** Invariants of a run *)

Section Invariant.

Variable learning_rate : R.
Variable n_minibatches : Z.
Variable P : loop_state -> Prop.

Hypothesis P_iteration :
  forall iter st st',
    iteration learning_rate n_minibatches iter st = ret st' -> P st -> P st'.

Lemma run_keeps (iters : list Z) (st st' : loop_state) :
  run_iterations learning_rate n_minibatches iters st = ret st' -> P st -> P st'.
Proof.
  revert st. induction iters as [|i iters IH]; intros st H HP.
  - apply ret_inj in H. now subst.
  - rewrite run_cons in H. apply bind_inv in H. destruct H as [st1 [Hb H]].
    apply (IH st1 H). exact (P_iteration _ _ _ Hb HP).
Qed.

Lemma for_loop_keeps (iters : list Z) (st st' : loop_state) :
  for_loop learning_rate n_minibatches iters st = ret st' -> P st -> P st'.
Proof.
  revert st. induction iters as [|i iters IH]; intros st H HP.
  - apply ret_inj in H. now subst.
  - cbn [for_loop] in H. apply bind_inv in H. destruct H as [st1 [Hb H]].
    pose proof (P_iteration _ _ _ Hb HP) as HP1.
    destruct (patience st1 <=? i)%Z.
    + apply ret_inj in H. now subst.
    + exact (IH st1 H HP1).
Qed.

End Invariant.

Lemma validation_phase_store (n_minibatches iter : Z) (st st' : loop_state) :
  validation_phase n_minibatches iter st = ret st' -> store st' = store st.
Proof.
  intros H.
  destruct (validation_phase_inv _ _ _ _ H)
    as [[_ ->]|[this [_ [_ [[_ ->]|[_ [Hs _]]]]]]]; auto.
Qed.

Lemma iteration_store (learning_rate : R) (n_minibatches iter : Z)
    (st st' : loop_state) :
  iteration learning_rate n_minibatches iter st = ret st' ->
  exists x,
    classifier_input
      (minibatch (train_set_x (store st))
                 ((iter mod n_minibatches) * batch_size)) = ret x
    /\ store st'
       = with_classifier (store st)
           (updates learning_rate (classifier (store st)) x
              (minibatch (train_set_y (store st))
                         ((iter mod n_minibatches) * batch_size))).
Proof.
  intros H. destruct (iteration_inv _ _ _ _ _ H) as [c [st1 [Ht Hv]]].
  destruct (train_phase_inv _ _ _ _ _ _ Ht) as [Hm _].
  destruct (train_model_inv _ _ _ _ _ Hm) as [x [Hx [_ Hs]]].
  exists x. split; [exact Hx|].
  now rewrite (validation_phase_store _ _ _ _ Hv).
Qed.

Lemma initial_carries (data : mnist) : carries data (initial_state data).
Proof.
  unfold carries, same_datasets. cbn [initial_state store].
  repeat split; try reflexivity.
  change (classifier (initial_store data)) with (LR.init (28 * 28) 10).
  apply init_well_shaped.
Qed.

Lemma iteration_carries (learning_rate : R) (n_minibatches : Z) (data : mnist)
    (iter : Z) (st st' : loop_state) :
  iteration learning_rate n_minibatches iter st = ret st' ->
  carries data st -> carries data st'.
Proof.
  intros H [Hd [Hin [Hout Hshape]]].
  destruct (iteration_store _ _ _ _ _ H) as [x [_ Hs]].
  unfold carries. rewrite Hs. unfold same_datasets in *.
  cbn [with_classifier classifier train_set_x train_set_y valid_set_x
       valid_set_y test_set_x test_set_y updates LR.n_in LR.n_out].
  split; [exact Hd|]. split; [exact Hin|]. split; [exact Hout|].
  now apply updates_well_shaped.
Qed.

End LoopMoreFacts.

Module RunFacts.
Import Numpy NumpyFacts Spec ClassifierFacts SGD BatchFacts BatchTheorems
       LoopFacts CompiledFacts LoopMoreFacts.

Lemma carries_train (data : mnist) (st : loop_state) :
  carries data st ->
  train_set_x (store st) = fst (train_set data)
  /\ train_set_y (store st) = snd (train_set data).
Proof. intros [[Hx [Hy _]] _]. split; assumption. Qed.

Lemma carries_valid (data : mnist) (st : loop_state) :
  carries data st ->
  valid_set_x (store st) = fst (valid_set data)
  /\ valid_set_y (store st) = snd (valid_set data).
Proof. intros [[_ [_ [Hx [Hy _]]]] _]. split; assumption. Qed.

Lemma carries_test (data : mnist) (st : loop_state) :
  carries data st ->
  test_set_x (store st) = fst (test_set data)
  /\ test_set_y (store st) = snd (test_set data).
Proof. intros [[_ [_ [_ [_ [Hx Hy]]]]] _]. split; assumption. Qed.

Lemma split_eta (s : split) : s = (fst s, snd s).
Proof. now destruct s. Qed.

(** On a well-formed dataset the training step of every iteration
    returns. *)
Lemma train_phase_total (learning_rate : R) (data : mnist) (iter : Z)
    (st : loop_state) :
  well_formed_mnist data ->
  (0 < n_batches (fst (train_set data)))%Z ->
  carries data st ->
  exists cost_ij st1,
    train_phase learning_rate (n_batches (fst (train_set data))) iter st
    = ret (cost_ij, st1)
    /\ carries data st1
    /\ patience st1 = patience st
    /\ best_validation_loss st1 = best_validation_loss st
    /\ test_score st1 = test_score st.
Proof.
  intros [Hwf [_ [_ Hlab]]] Hn Hc.
  destruct (carries_train _ _ Hc) as [Hx Hy].
  destruct Hc as [Hd [Hin [Hout Hshape]]].
  set (n := n_batches (fst (train_set data))) in *.
  pose proof (Z.mod_pos_bound iter n Hn) as Hi.
  rewrite (split_eta (train_set data)) in Hwf.
  destruct (well_formed_batch_fits _ _ (iter mod n) Hwf Hi) as [Hfx _].
  destruct (train_model_fits learning_rate ((iter mod n) * batch_size) (store st))
    as [x [_ [_ Ht]]].
  - now rewrite Hx.
  - intros l Hl. rewrite Hy in Hl. apply slice_incl in Hl.
    rewrite Hout. specialize (Hlab l Hl). lia.
  - unfold train_phase. cbv zeta. rewrite Ht, bind_ret. cbn [fst snd].
    eexists. eexists. split; [reflexivity|].
    split; [|cbn; auto].
    unfold carries. cbn [store]. unfold same_datasets in *.
    cbn [with_classifier classifier train_set_x train_set_y valid_set_x
         valid_set_y test_set_x test_set_y updates LR.n_in LR.n_out].
    split; [exact Hd|]. split; [exact Hin|]. split; [exact Hout|].
    now apply updates_well_shaped.
Qed.

Lemma validation_phase_total (n_minibatches iter : Z) (data : mnist)
    (st : loop_state) :
  well_formed_mnist data -> carries data st ->
  exists st', validation_phase n_minibatches iter st = ret st'.
Proof.
  intros [_ [Hv [Ht _]]] Hc.
  destruct (carries_valid _ _ Hc) as [Hvx Hvy].
  destruct (carries_test _ _ Hc) as [Htx Hty].
  rewrite (split_eta (valid_set data)), <- Hvx, <- Hvy in Hv.
  rewrite (split_eta (test_set data)), <- Htx, <- Hty in Ht.
  destruct (sweep_total validate_model _ _ (store st) (fun off => eq_refl) Hv)
    as [this Hthis].
  destruct (sweep_total test_model _ _ (store st) (fun off => eq_refl) Ht)
    as [score Hscore].
  unfold validation_phase.
  destruct (validation_due n_minibatches iter); [|eexists; reflexivity].
  unfold this_validation_loss, this_test_score. cbv zeta.
  rewrite Hthis, bind_ret.
  destruct (loss_lt this (best_validation_loss st)); [|eexists; reflexivity].
  rewrite Hscore, bind_ret. eexists. reflexivity.
Qed.

Lemma iteration_total (learning_rate : R) (data : mnist) (iter : Z)
    (st : loop_state) :
  well_formed_mnist data ->
  (0 < n_batches (fst (train_set data)))%Z ->
  carries data st ->
  exists st',
    iteration learning_rate (n_batches (fst (train_set data))) iter st = ret st'.
Proof.
  intros Hwf Hn Hc.
  destruct (train_phase_total learning_rate data iter st Hwf Hn Hc)
    as [c [st1 [Ht [Hc1 _]]]].
  destruct (validation_phase_total (n_batches (fst (train_set data))) iter
              data st1 Hwf Hc1) as [st' Hv].
  exists st'. unfold iteration. cbv zeta. now rewrite Ht, bind_ret.
Qed.

Lemma for_loop_total (learning_rate : R) (data : mnist) (iters : list Z)
    (st : loop_state) :
  well_formed_mnist data ->
  (0 < n_batches (fst (train_set data)))%Z ->
  carries data st ->
  exists st',
    for_loop learning_rate (n_batches (fst (train_set data))) iters st = ret st'.
Proof.
  intros Hwf Hn. revert st. induction iters as [|i iters IH]; intros st Hc.
  - exists st. reflexivity.
  - destruct (iteration_total learning_rate data i st Hwf Hn Hc) as [st1 H1].
    cbn [for_loop]. rewrite H1, bind_ret.
    destruct (patience st1 <=? i)%Z; [eexists; reflexivity|].
    apply IH. exact (iteration_carries _ _ _ _ _ _ H1 Hc).
Qed.

Lemma sgd_total (learning_rate : R) (n_iter : Z) (env : environment) :
  well_formed_mnist (mnist_pkl_gz env) ->
  exists rep, sgd_optimization_mnist learning_rate n_iter env = ret rep.
Proof.
  intros Hwf. unfold sgd_optimization_mnist. cbv zeta.
  change (train_set_x (initial_store (mnist_pkl_gz env)))
    with (fst (train_set (mnist_pkl_gz env))).
  pose proof (n_batches_bounds (fst (train_set (mnist_pkl_gz env)))) as Hb.
  cbv zeta in Hb.
  destruct (Z.eq_dec (n_batches (fst (train_set (mnist_pkl_gz env)))) 0)
    as [E|E].
  - rewrite E, Z.mul_0_r. change (xrange 0) with (@nil Z). cbn [for_loop].
    rewrite bind_ret. eexists. reflexivity.
  - destruct (for_loop_total learning_rate (mnist_pkl_gz env)
                (xrange (n_iter * n_batches (fst (train_set (mnist_pkl_gz env)))))
                (initial_state (mnist_pkl_gz env)) Hwf ltac:(lia)
                (initial_carries _)) as [st' ->].
    rewrite bind_ret. eexists. reflexivity.
Qed.

Lemma sgd_final (learning_rate : R) (n_iter : Z) (env : environment)
    (rep : report) :
  sgd_optimization_mnist learning_rate n_iter env = ret rep ->
  for_loop learning_rate
    (n_batches (train_set_x (initial_store (mnist_pkl_gz env))))
    (xrange (n_iter * n_batches (train_set_x (initial_store (mnist_pkl_gz env)))))
    (initial_state (mnist_pkl_gz env)) = ret (final rep).
Proof.
  unfold sgd_optimization_mnist. cbv zeta. intros H.
  apply bind_inv in H. destruct H as [st [Hloop H]].
  apply ret_inj in H. subst rep. exact Hloop.
Qed.

Lemma black_well_formed : well_formed_mnist black_mnist.
Proof.
  assert (Hs : well_formed_split black_split).
  { unfold well_formed_split, black_split. cbn [fst snd]. split.
    - intros row Hrow. apply repeat_spec in Hrow. rewrite Hrow.
      apply repeat_length.
    - now rewrite !repeat_length. }
  unfold well_formed_mnist, black_mnist. cbn [train_set valid_set test_set].
  repeat split; try apply Hs.
  - unfold black_split in H. cbn [snd] in H. apply repeat_spec in H. lia.
  - unfold black_split in H. cbn [snd] in H. apply repeat_spec in H. lia.
Qed.

End RunFacts.

Module RunTheorems.
Import Numpy NumpyFacts Spec ClassifierFacts SGD BatchFacts BatchTheorems
       LoopFacts CompiledFacts LoopMoreFacts RunFacts.

Lemma class_labels_well_formed (data : mnist) :
  mnist_with_class_labels data -> well_formed_mnist data.
Proof.
  intros [Htrain [Hvalid [Htest Hlab]]].
  split; [exact Htrain|]. split; [exact Hvalid|]. split; [exact Htest|].
  intros l Hl. specialize (Hlab l Hl). lia.
Qed.

(** X9: on a dataset whose three splits hold one label for each image of
    28 x 28 pixels, with training labels among the classes 0, ..., 9, the
    run raises no exception: it returns a report, for every learning rate
    and every [n_iter]. *)
Theorem well_formed_run_completes
    (learning_rate : R) (n_iter : Z) (env : environment) :
  mnist_with_class_labels (mnist_pkl_gz env) ->
  exists rep, sgd_optimization_mnist learning_rate n_iter env = ret rep.
Proof.
  intros H. apply sgd_total. now apply class_labels_well_formed.
Qed.

Lemma black_class_labels : mnist_with_class_labels black_mnist.
Proof.
  destruct black_well_formed as [Htrain [Hvalid [Htest _]]].
  split; [exact Htrain|]. split; [exact Hvalid|]. split; [exact Htest|].
  intros l Hl. unfold black_mnist, black_split in Hl.
  cbn [train_set snd] in Hl. apply repeat_spec in Hl. lia.
Qed.

Lemma well_formed_run_completes_witness :
  exists rep, sgd_optimization_mnist (13 / 100) 100 (black_env INR) = ret rep.
Proof.
  apply (well_formed_run_completes (13 / 100) 100 (black_env INR)).
  exact black_class_labels.
Defined.

(** X10: whatever the dataset, a run that returns leaves the six dataset
    arrays as they were loaded and a classifier of 784 inputs and 10
    outputs whose [W] has 784 rows of 10 entries and whose [b] has 10. *)
Theorem run_keeps_datasets_and_shapes
    (learning_rate : R) (n_iter : Z) (env : environment) (rep : report) :
  sgd_optimization_mnist learning_rate n_iter env = ret rep ->
  let c := classifier (store (final rep)) in
  same_datasets (initial_store (mnist_pkl_gz env)) (store (final rep))
  /\ LR.n_in c = 784%nat /\ LR.n_out c = 10%nat
  /\ length (LR.W c) = 784%nat
  /\ (forall row, In row (LR.W c) -> length row = 10%nat)
  /\ length (LR.b c) = 10%nat.
Proof.
  intros H. cbv zeta. apply sgd_final in H.
  assert (Hc : carries (mnist_pkl_gz env) (final rep)).
  { apply (for_loop_keeps _ _ (carries (mnist_pkl_gz env))
             (fun iter st st' => iteration_carries _ _ _ iter st st') _ _ _ H).
    apply initial_carries. }
  destruct Hc as [Hd [Hin [Hout [HW [Hrow Hb]]]]].
  rewrite Hin in HW. rewrite Hout in Hrow, Hb. auto 10.
Qed.

Lemma run_keeps_datasets_and_shapes_witness :
  exists rep,
    sgd_optimization_mnist (13 / 100) 1 (black_env INR) = ret rep
    /\ length (LR.W (classifier (store (final rep)))) = 784%nat.
Proof.
  destruct (sgd_total (13 / 100) 1 (black_env INR) black_well_formed)
    as [rep Hrep].
  exists rep. split; [exact Hrep|].
  apply (run_keeps_datasets_and_shapes _ _ _ _ Hrep).
Defined.

End RunTheorems.

Module StoppingFacts.
Import Numpy NumpyFacts Spec ClassifierFacts SGD BatchFacts BatchTheorems
       LoopFacts CompiledFacts LoopMoreFacts RunFacts.

Lemma xrange_nonpos (n : Z) : (n <= 0)%Z -> xrange n = [].
Proof.
  intros H. unfold xrange. replace (Z.to_nat n) with O by lia. reflexivity.
Qed.

Lemma xrange_pos (n : Z) : (0 < n)%Z -> exists rest, xrange n = 0%Z :: rest.
Proof.
  intros H. unfold xrange.
  replace (Z.to_nat n) with (S (Z.to_nat (n - 1))) by lia.
  cbn [seq map]. eexists. reflexivity.
Qed.

Lemma run_prefix (learning_rate : R) (n_minibatches j k : Z)
    (st r : loop_state) :
  (0 <= j <= k)%Z ->
  run_iterations learning_rate n_minibatches (xrange k) st = ret r ->
  exists sj,
    run_iterations learning_rate n_minibatches (xrange j) st = ret sj.
Proof.
  intros Hjk H. destruct (xrange_split j k Hjk) as [rest Hrest].
  rewrite Hrest, run_app in H. apply bind_inv in H.
  destruct H as [sj [Hsj _]]. now exists sj.
Qed.

Lemma numpy_mean_range (l : list R) (r : R) :
  (forall v, In v l -> 0 <= v <= 1) -> numpy_mean l = Num r -> 0 <= r <= 1.
Proof.
  intros Hl H. split.
  - apply (numpy_mean_nonneg l r); [|exact H]. intros v Hv. now apply Hl.
  - assert (Hr : l <> [] -> Rsum l / INR (length l) <= 1).
    { intros Hne.
      assert (Hs : Rsum l <= INR (length l)).
      { apply Rsum_le_length. intros v Hv. now apply Hl. }
      assert (Hn : 0 < INR (length l)).
      { apply lt_0_INR. destruct l; [congruence|simpl; lia]. }
      apply (Rmult_le_reg_r (INR (length l))); [exact Hn|].
      unfold Rdiv. rewrite Rmult_assoc, Rinv_l by lra. lra. }
    unfold numpy_mean in H. destruct l as [|v l]; [discriminate|].
    injection H as <-. apply Hr. discriminate.
Qed.

Lemma this_validation_loss_range (s : shared) (r : R) :
  this_validation_loss s = ret (Num r) -> 0 <= r <= 1.
Proof.
  unfold this_validation_loss. intros H. cbv zeta in H.
  apply bind_inv in H. destruct H as [losses [Hm H]].
  apply ret_inj in H. apply (numpy_mean_range losses r); [|exact H].
  intros v Hv. destruct (mapM_inv _ _ _ Hm v Hv) as [i [_ Hi]].
  unfold validate_model in Hi. now apply errors_function_bounds in Hi.
Qed.

Lemma loss_le_refl (a : loss) : loss_le a a.
Proof. now left. Qed.

Lemma loss_lt_trans (a b c : loss) :
  loss_lt a b = true -> loss_lt b c = true -> loss_lt a c = true.
Proof.
  destruct a as [x| |], b as [y| |], c as [z| |]; simpl; intros H1 H2;
    try discriminate; try reflexivity.
  destruct (Rlt_dec x y), (Rlt_dec y z), (Rlt_dec x z); try congruence. lra.
Qed.

Lemma loss_le_trans (a b c : loss) : loss_le a b -> loss_le b c -> loss_le a c.
Proof.
  intros [->|Hab] [->|Hbc]; try (now left); try (now right).
  right. exact (loss_lt_trans _ _ _ Hab Hbc).
Qed.

(** An iteration either leaves the three counters alone or lowers the
    best validation loss to a fraction in [0, 1]. *)
Lemma iteration_counters (learning_rate : R) (n_minibatches iter : Z)
    (st st' : loop_state) :
  iteration learning_rate n_minibatches iter st = ret st' ->
  (best_validation_loss st' = best_validation_loss st
   /\ test_score st' = test_score st
   /\ patience st' = patience st)
  \/ (loss_lt (best_validation_loss st') (best_validation_loss st) = true
      /\ exists r, best_validation_loss st' = Num r /\ 0 <= r <= 1).
Proof.
  intros H. destruct (iteration_inv _ _ _ _ _ H) as [c [st1 [Ht Hv]]].
  destruct (train_phase_inv _ _ _ _ _ _ Ht) as [_ [Hp [Hb Hs]]].
  destruct (validation_phase_inv _ _ _ _ Hv)
    as [[_ ->]|[this [_ [Hthis [[_ ->]|[Hlt [_ [_ Hbest]]]]]]]]; auto.
  right. rewrite Hbest, <- Hb. split; [exact Hlt|].
  destruct (loss_lt_Num _ _ Hlt) as [t ->]. exists t. split; [reflexivity|].
  exact (this_validation_loss_range _ _ Hthis).
Qed.

Lemma run_best_le (learning_rate : R) (n_minibatches : Z) (iters : list Z)
    (st st' : loop_state) :
  run_iterations learning_rate n_minibatches iters st = ret st' ->
  loss_le (best_validation_loss st') (best_validation_loss st).
Proof.
  revert st. induction iters as [|i iters IH]; intros st H.
  - apply ret_inj in H. subst. apply loss_le_refl.
  - rewrite run_cons in H. apply bind_inv in H. destruct H as [st1 [Hb H]].
    apply (loss_le_trans _ (best_validation_loss st1)); [now apply IH|].
    destruct (iteration_counters _ _ _ _ _ Hb) as [[-> _]|[Hlt _]].
    + apply loss_le_refl.
    + now right.
Qed.

Lemma iteration_untouched (learning_rate : R) (n_minibatches iter : Z)
    (st st' : loop_state) :
  iteration learning_rate n_minibatches iter st = ret st' ->
  untouched_while_inf st -> untouched_while_inf st'.
Proof.
  intros H [Hr Hi]. unfold untouched_while_inf.
  destruct (iteration_counters _ _ _ _ _ H) as [[-> [-> ->]]|[_ [r [-> Hr']]]].
  - split; assumption.
  - split; [exact Hr'|discriminate].
Qed.

End StoppingFacts.

Module StoppingTheorems.
Import Numpy NumpyFacts Spec ClassifierFacts SGD BatchFacts BatchTheorems
       LoopFacts CompiledFacts LoopMoreFacts RunFacts StoppingFacts.

(** X11: patience is at least 5000 in every state, so a run that returns
    has executed the iterations 0, ..., k with [5000 <= k], unless the
    range ended first ([k = n_iter * n_minibatches - 1]): the loop never
    breaks before it has completed iteration 5000. *)
Theorem no_break_before_iteration_5000
    (learning_rate : R) (n_iter : Z) (env : environment) (rep : report) :
  sgd_optimization_mnist learning_rate n_iter env = ret rep ->
  let data := mnist_pkl_gz env in
  let n_minibatches := n_batches (train_set_x (initial_store data)) in
  let N := (n_iter * n_minibatches)%Z in
  (5000 <= patience (final rep))%Z
  /\ (((N <= 0)%Z /\ final rep = initial_state data)
      \/ exists k, (0 <= k < N)%Z
           /\ run_iterations learning_rate n_minibatches (xrange (k + 1))
                (initial_state data) = ret (final rep)
           /\ ((5000 <= k)%Z \/ k = (N - 1)%Z)).
Proof.
  intros H. cbv zeta. apply sgd_final in H.
  destruct (for_loop_xrange _ _ _ _ _ H)
    as [[HN Hst]|[k [Hk [Hrun [Hend _]]]]].
  - split; [rewrite Hst; simpl; lia|]. left. split; assumption.
  - pose proof (run_patience _ _ _ _ _ Hrun) as Hp.
    change (patience (initial_state (mnist_pkl_gz env))) with 5000%Z in Hp.
    split; [exact Hp|]. right. exists k. split; [exact Hk|].
    split; [exact Hrun|]. destruct Hend; [left; lia|now right].
Qed.

Lemma no_break_before_iteration_5000_witness :
  exists rep,
    sgd_optimization_mnist (13 / 100) 1 (black_env INR) = ret rep
    /\ (5000 <= patience (final rep))%Z.
Proof.
  destruct (sgd_total (13 / 100) 1 (black_env INR) black_well_formed)
    as [rep Hrep].
  exists rep. split; [exact Hrep|].
  apply (no_break_before_iteration_5000 _ _ _ _ Hrep).
Defined.

(** X12: along a run the best validation loss never goes up, and it is
    [inf] or a fraction in [0, 1] (never not-a-number); as long as it is
    [inf], the test score is still 0 and patience still 5000. *)
Theorem best_validation_loss_only_improves
    (learning_rate : R) (data : mnist) (j k : Z) (sj sk : loop_state) :
  let n_minibatches := n_batches (train_set_x (initial_store data)) in
  let run := run_iterations learning_rate n_minibatches in
  (0 <= j <= k)%Z ->
  run (xrange j) (initial_state data) = ret sj ->
  run (xrange k) (initial_state data) = ret sk ->
  loss_le (best_validation_loss sk) (best_validation_loss sj)
  /\ best_in_range (best_validation_loss sk)
  /\ (best_validation_loss sk = Inf ->
      test_score sk = Num 0 /\ patience sk = 5000%Z).
Proof.
  cbv zeta. intros Hjk Hj Hk.
  assert (Hu : untouched_while_inf sk).
  { apply (run_keeps _ _ untouched_while_inf
             (fun iter st st' => iteration_untouched _ _ iter st st') _ _ _ Hk).
    split; [exact I|]. intros _. split; reflexivity. }
  split; [|exact Hu].
  destruct (xrange_split j k Hjk) as [rest Hrest].
  rewrite Hrest, run_app, Hj, bind_ret in Hk.
  exact (run_best_le _ _ _ _ _ Hk).
Qed.

Lemma best_validation_loss_only_improves_witness :
  exists sk,
    run_iterations (13 / 100) 1 (xrange 1) (initial_state black_mnist) = ret sk
    /\ loss_le (best_validation_loss sk)
               (best_validation_loss (initial_state black_mnist)).
Proof.
  destruct (LoopTheorems.black_first_iteration (13 / 100)) as [sk Hsk].
  assert (Hrun : run_iterations (13 / 100) 1 (xrange 1)
                   (initial_state black_mnist) = ret sk).
  { change (xrange 1) with [0%Z]. cbn [run_iterations].
    rewrite Hsk. reflexivity. }
  exists sk. split; [exact Hrun|].
  pose proof (best_validation_loss_only_improves (13 / 100) black_mnist
                0 1 (initial_state black_mnist) sk) as H.
  cbv zeta in H. rewrite LoopTheorems.black_n_minibatches in H.
  apply H; [lia|reflexivity|exact Hrun].
Defined.

(** X13: a run with [n_iter <= 0], or with fewer than 500 training
    examples, executes no iteration and raises nothing, whatever else the
    dataset holds: it reports the initial state (zero parameters, best
    validation loss [inf], test score 0). *)
Theorem run_without_iterations
    (learning_rate : R) (n_iter : Z) (env : environment) :
  (n_iter <= 0)%Z
  \/ (length (fst (train_set (mnist_pkl_gz env))) < 500)%nat ->
  sgd_optimization_mnist learning_rate n_iter env = ret (idle_report env).
Proof.
  intros H. unfold sgd_optimization_mnist. cbv zeta.
  change (train_set_x (initial_store (mnist_pkl_gz env)))
    with (fst (train_set (mnist_pkl_gz env))).
  pose proof (n_batches_bounds (fst (train_set (mnist_pkl_gz env)))) as Hb.
  cbv zeta in Hb.
  rewrite xrange_nonpos; [reflexivity|].
  destruct H as [H|H].
  - apply Z.mul_nonpos_nonneg; lia.
  - unfold batch_size in Hb.
    assert (n_batches (fst (train_set (mnist_pkl_gz env))) = 0)%Z by lia.
    lia.
Qed.

Lemma run_without_iterations_witness :
  sgd_optimization_mnist (13 / 100) 0 (black_env INR)
  = ret (idle_report (black_env INR)).
Proof.
  apply (run_without_iterations (13 / 100) 0 (black_env INR)). left. lia.
Defined.

Lemma first_iteration_raises (learning_rate : R) (n_iter : Z)
    (env : environment) (e : exception) :
  (1 <= n_iter)%Z ->
  (500 <= length (fst (train_set (mnist_pkl_gz env))))%nat ->
  train_model learning_rate 0 (initial_store (mnist_pkl_gz env)) = raise e ->
  sgd_optimization_mnist learning_rate n_iter env = raise e.
Proof.
  intros Hn Hlen Ht. unfold sgd_optimization_mnist. cbv zeta.
  pose proof (n_batches_bounds (train_set_x (initial_store (mnist_pkl_gz env))))
    as Hb. cbv zeta in Hb.
  change (train_set_x (initial_store (mnist_pkl_gz env)))
    with (fst (train_set (mnist_pkl_gz env))) in *.
  set (n := n_batches (fst (train_set (mnist_pkl_gz env)))) in *.
  assert (Hn1 : (1 <= n)%Z) by (unfold batch_size in Hb; lia).
  destruct (xrange_pos (n_iter * n)) as [rest ->]; [nia|].
  cbn [for_loop]. unfold iteration, train_phase. cbv zeta.
  rewrite Z.mod_0_l by lia. change (0 * batch_size)%Z with 0%Z.
  cbn [initial_state store]. rewrite Ht. reflexivity.
Qed.

(** X14: with [n_iter >= 1] and at least 500 training examples, the run
    raises [ValueError] when the first 500 training images do not hold
    500 * 784 entries: the failure of the first training step ends the
    run, before any validation. *)
Theorem first_batch_failure_ends_the_run
    (learning_rate : R) (n_iter : Z) (env : environment) :
  (1 <= n_iter)%Z ->
  (500 <= length (fst (train_set (mnist_pkl_gz env))))%nat ->
  ~ batch_fits (fst (train_set (mnist_pkl_gz env))) 0 ->
  sgd_optimization_mnist learning_rate n_iter env = raise ValueError.
Proof.
  intros Hn Hlen Hx.
  apply first_iteration_raises; [exact Hn|exact Hlen|].
  apply train_model_misfit. exact Hx.
Qed.

Lemma first_batch_failure_ends_the_run_witness :
  sgd_optimization_mnist (13 / 100) 1
    {| mnist_pkl_gz := one_pixel_mnist; clock := INR |} = raise ValueError.
Proof.
  apply (first_batch_failure_ends_the_run (13 / 100) 1
           {| mnist_pkl_gz := one_pixel_mnist; clock := INR |}).
  - lia.
  - cbn [mnist_pkl_gz one_pixel_mnist train_set fst].
    rewrite repeat_length. lia.
  - cbn [mnist_pkl_gz one_pixel_mnist train_set fst].
    unfold batch_fits.
    rewrite minibatch_whole by apply repeat_length.
    rewrite (concat_length_uniform _ 1).
    + rewrite repeat_length. lia.
    + intros row Hrow. apply repeat_spec in Hrow. now subst row.
Defined.

End StoppingTheorems.

(** ** Sums of the parameters *)

Module SumFacts.
Import Numpy NumpyFacts Spec ClassifierFacts ClassifierMoreFacts SGD BatchFacts
       BatchTheorems LoopFacts CompiledFacts LoopMoreFacts RunFacts
       GradientFacts.

Lemma Rsum_map_scal_l {A : Type} (f : A -> R) (c : R) (l : list A) :
  Rsum (map (fun a => c * f a) l) = c * Rsum (map f l).
Proof.
  rewrite (Rsum_map_ext _ (fun a => f a * c)) by (intros; lra).
  rewrite Rsum_map_scal. lra.
Qed.

Lemma Rsum_swap {A B : Type} (f : A -> B -> R) (la : list A) (lb : list B) :
  Rsum (map (fun b => Rsum (map (fun a => f a b) la)) lb)
  = Rsum (map (fun a => Rsum (map (fun b => f a b) lb)) la).
Proof.
  induction lb as [|b lb IH].
  - cbn [map]. rewrite Rsum_map_const. unfold Rsum. simpl. lra.
  - cbn [map]. rewrite <- (Rsum_map_ext
                (fun a => f a b + Rsum (map (fun b => f a b) lb))
                (fun a => Rsum (f a b :: map (fun b => f a b) lb)))
      by (intros; reflexivity).
    rewrite Rsum_map_plus, <- IH. reflexivity.
Qed.

Lemma map_nth_seq (l : list R) :
  map (fun k => nth k l 0) (seq 0 (length l)) = l.
Proof.
  apply (nth_ext _ _ 0 0).
  - now rewrite length_map, length_seq.
  - intros k Hk. rewrite length_map, length_seq in Hk.
    rewrite (nth_map_in _ (seq 0 (length l)) k 0 O) by (rewrite length_seq; lia).
    now rewrite seq_nth by lia.
Qed.

(** Row [i] of the probability matrix sums to 1, row [i] of the one-hot
    labels too. *)
Lemma p_row_sum (self : LR.t) (input : matrix) (i : nat) :
  (0 < LR.n_out self)%nat -> (i < length input)%nat ->
  Rsum (map (fun k => mnth (LR.p_y_given_x self input) i k)
            (seq 0 (LR.n_out self))) = 1.
Proof.
  intros HK Hi. unfold mnth.
  rewrite <- (p_y_given_x_row_length self input i Hi) at 1.
  rewrite map_nth_seq, p_y_given_x_row by exact Hi.
  apply softmax_row_sum. destruct (LR.n_out self); [lia|]. simpl. discriminate.
Qed.

Lemma one_hot_row_sum (y : list Z) (i K : nat) :
  (0 <= nth i y 0 < Z.of_nat K)%Z ->
  Rsum (map (fun k => one_hot y i k) (seq 0 K)) = 1.
Proof.
  intros Hy.
  rewrite (Rsum_map_ext _
             (fun k => if (k =? Z.to_nat (nth i y 0%Z))%nat then 1 else 0)).
  - apply Rsum_indicator. lia.
  - intros k _. unfold one_hot.
    destruct (Z.eqb_spec (nth i y 0%Z) (Z.of_nat k)) as [E|E];
      destruct (Nat.eqb_spec k (Z.to_nat (nth i y 0%Z))) as [E'|E'];
      try reflexivity; exfalso; lia.
Qed.

Lemma residual_row_sum (self : LR.t) (input : matrix) (y : list Z) (i : nat) :
  (i < length input)%nat ->
  (0 <= nth i y 0 < Z.of_nat (LR.n_out self))%Z ->
  Rsum (map (fun k => mnth (LR.p_y_given_x self input) i k - one_hot y i k)
            (seq 0 (LR.n_out self))) = 0.
Proof.
  intros Hi Hy.
  rewrite (Rsum_map_ext _
             (fun k => mnth (LR.p_y_given_x self input) i k
                       + - one_hot y i k)) by (intros; lra).
  rewrite Rsum_map_plus, Rsum_map_opp, p_row_sum, one_hot_row_sum; try lia.
  lra.
Qed.

Lemma closed_form_g_b_sum (c : LR.t) (x : matrix) (y : list Z) :
  length y = length x ->
  (forall i, (i < length y)%nat -> (0 <= nth i y 0 < Z.of_nat (LR.n_out c))%Z) ->
  Rsum (closed_form_g_b c x y) = 0.
Proof.
  intros Hlen Hy. unfold closed_form_g_b. cbv zeta. unfold Rdiv.
  rewrite (Rsum_map_scal
             (fun k => Rsum (map (fun i => mnth (LR.p_y_given_x c x) i k
                                           - one_hot y i k)
                                 (seq 0 (length y))))).
  rewrite (Rsum_swap (fun i k => mnth (LR.p_y_given_x c x) i k - one_hot y i k)).
  rewrite (Rsum_map_ext _ (fun _ => 0)).
  - rewrite Rsum_map_const. lra.
  - intros i Hi. apply in_seq in Hi. apply residual_row_sum; [lia|].
    apply Hy. lia.
Qed.

Lemma closed_form_g_W_row_sum (c : LR.t) (x : matrix) (y : list Z) (j : nat) :
  length y = length x ->
  (forall i, (i < length y)%nat -> (0 <= nth i y 0 < Z.of_nat (LR.n_out c))%Z) ->
  (j < LR.n_in c)%nat ->
  Rsum (nth j (closed_form_g_W c x y) []) = 0.
Proof.
  intros Hlen Hy Hj. unfold closed_form_g_W. cbv zeta.
  rewrite (@nth_map_in nat (list R) _ (seq 0 (LR.n_in c)) j [] O)
    by (rewrite length_seq; lia).
  rewrite seq_nth by lia. cbn [Nat.add]. unfold Rdiv.
  rewrite (Rsum_map_scal
             (fun k => Rsum (map (fun i => mnth x i j
                                           * (mnth (LR.p_y_given_x c x) i k
                                              - one_hot y i k))
                                 (seq 0 (length y))))).
  rewrite (Rsum_swap (fun i k => mnth x i j
                                 * (mnth (LR.p_y_given_x c x) i k
                                    - one_hot y i k))).
  rewrite (Rsum_map_ext _ (fun _ => 0)).
  - rewrite Rsum_map_const. lra.
  - intros i Hi. apply in_seq in Hi.
    rewrite Rsum_map_scal_l, residual_row_sum; [lra|lia|].
    apply Hy. lia.
Qed.

Lemma Rsum_axpy (a g : vector) (c : R) :
  length g = length a ->
  Rsum (T.axpy_vector a c g) = Rsum a - c * Rsum g.
Proof.
  revert g. induction a as [|u a IH]; intros [|v g] H; simpl in H; try lia.
  - unfold T.axpy_vector, Rsum. simpl. lra.
  - unfold T.axpy_vector in *. cbn [combine map fst snd].
    unfold Rsum in *. cbn [fold_right]. rewrite IH by lia. lra.
Qed.

Lemma updates_b_sum (learning_rate : R) (c : LR.t) (x : matrix) (y : list Z) :
  well_shaped c -> length y = length x ->
  (forall i, (i < length y)%nat -> (0 <= nth i y 0 < Z.of_nat (LR.n_out c))%Z) ->
  Rsum (LR.b (updates learning_rate c x y)) = Rsum (LR.b c).
Proof.
  intros Hc Hlen Hy. unfold updates. cbn [LR.b].
  rewrite Rsum_axpy.
  - rewrite g_b_closed_form, closed_form_g_b_sum by assumption. lra.
  - unfold g_b, T.grad_vector. now rewrite length_map, length_seq.
Qed.

Lemma updates_W_row_sum (learning_rate : R) (c : LR.t) (x : matrix)
    (y : list Z) (j : nat) :
  well_shaped c -> length y = length x ->
  (forall i, (i < length y)%nat -> (0 <= nth i y 0 < Z.of_nat (LR.n_out c))%Z) ->
  (j < LR.n_in c)%nat ->
  Rsum (nth j (LR.W (updates learning_rate c x y)) [])
  = Rsum (nth j (LR.W c) []).
Proof.
  intros Hc Hlen Hy Hj. pose proof Hc as [HW _].
  unfold updates. cbn [LR.W]. unfold T.axpy_matrix.
  rewrite (@nth_map_in (vector * vector) vector _ _ j [] ([], []))
    by (rewrite length_combine; unfold g_W; rewrite grad_matrix_length; lia).
  rewrite combine_nth by (unfold g_W; now rewrite grad_matrix_length).
  cbn [fst snd]. rewrite Rsum_axpy.
  - rewrite g_W_closed_form, closed_form_g_W_row_sum by assumption. lra.
  - unfold g_W. apply grad_matrix_row_length. lia.
Qed.

Lemma Rsum_repeat_0 (n : nat) : Rsum (repeat 0 n) = 0.
Proof.
  induction n as [|n IH]; unfold Rsum in *; simpl; [reflexivity|].
  rewrite IH. lra.
Qed.

Lemma init_zero_sums (n_in n_out : nat) : zero_sums (LR.init n_in n_out).
Proof.
  unfold zero_sums, LR.init, zeros2, zeros. cbn [LR.W LR.b].
  split; [apply Rsum_repeat_0|].
  intros row Hrow. apply repeat_spec in Hrow. subst row. apply Rsum_repeat_0.
Qed.

Lemma updates_zero_sums (learning_rate : R) (c : LR.t) (x : matrix) (y : list Z) :
  well_shaped c -> length y = length x ->
  (forall i, (i < length y)%nat -> (0 <= nth i y 0 < Z.of_nat (LR.n_out c))%Z) ->
  zero_sums c -> zero_sums (updates learning_rate c x y).
Proof.
  intros Hc Hlen Hy [Hb Hrows]. split.
  - rewrite updates_b_sum by assumption. exact Hb.
  - intros row Hrow.
    destruct (In_nth _ _ [] Hrow) as [j [Hj <-]].
    pose proof (updates_well_shaped learning_rate c x y Hc) as [HW' _].
    rewrite HW' in Hj. cbn [updates LR.n_in] in Hj.
    rewrite updates_W_row_sum by assumption.
    apply Hrows. apply nth_In. destruct Hc as [HW _]. lia.
Qed.

End SumFacts.

Module SumTheorems.
Import Numpy NumpyFacts Spec ClassifierFacts ClassifierMoreFacts SGD BatchFacts
       BatchTheorems LoopFacts CompiledFacts LoopMoreFacts RunFacts
       StoppingFacts GradientFacts SumFacts.

(** X15: on a batch with one label in [0, n_out) per example, the
    gradient of the cost sums to zero over the classes, so one update
    changes neither the sum of the biases nor the sum of any row of [W]. *)
Theorem update_keeps_parameter_sums
    (learning_rate : R) (c : LR.t) (x : matrix) (y : list Z) :
  well_shaped c ->
  length y = length x ->
  (forall i, (i < length y)%nat -> (0 <= nth i y 0 < Z.of_nat (LR.n_out c))%Z) ->
  Rsum (g_b c x y) = 0
  /\ (forall j, (j < LR.n_in c)%nat -> Rsum (nth j (g_W c x y) []) = 0)
  /\ Rsum (LR.b (updates learning_rate c x y)) = Rsum (LR.b c)
  /\ (forall j, (j < LR.n_in c)%nat ->
        Rsum (nth j (LR.W (updates learning_rate c x y)) [])
        = Rsum (nth j (LR.W c) [])).
Proof.
  intros Hc Hlen Hy. split; [|split; [|split]].
  - rewrite g_b_closed_form by assumption. now apply closed_form_g_b_sum.
  - intros j Hj. rewrite g_W_closed_form by assumption.
    now apply closed_form_g_W_row_sum.
  - now apply updates_b_sum.
  - intros j Hj. now apply updates_W_row_sum.
Qed.

Lemma update_keeps_parameter_sums_witness :
  Rsum (LR.b (updates (1 / 10) (LR.init 2 2) [[1; 1]] [0%Z]))
  = Rsum (LR.b (LR.init 2 2)).
Proof.
  apply (update_keeps_parameter_sums (1 / 10) (LR.init 2 2) [[1; 1]] [0%Z]).
  - apply init_well_shaped.
  - reflexivity.
  - intros [|i] Hi; simpl in *; lia.
Defined.

Lemma iteration_zero_sums (learning_rate : R) (data : mnist) (iter : Z)
    (st st' : loop_state) :
  well_formed_mnist data -> labels_are_classes data ->
  (0 < n_batches (fst (train_set data)))%Z ->
  iteration learning_rate (n_batches (fst (train_set data))) iter st = ret st' ->
  carries data st /\ zero_sums (classifier (store st)) ->
  carries data st' /\ zero_sums (classifier (store st')).
Proof.
  intros [Hwf _] Hlab Hn H [Hc Hz].
  split; [exact (iteration_carries _ _ _ _ _ _ H Hc)|].
  destruct (iteration_store _ _ _ _ _ H) as [x [Hx Hs]].
  destruct (carries_train _ _ Hc) as [Htx Hty].
  destruct Hc as [_ [_ [Hout Hshape]]].
  set (n := n_batches (fst (train_set data))) in *.
  pose proof (Z.mod_pos_bound iter n Hn) as Hi.
  rewrite (split_eta (train_set data)) in Hwf.
  destruct (well_formed_batch_fits _ _ (iter mod n) Hwf Hi) as [_ Hfy].
  unfold labels_fit in Hfy.
  rewrite Hs. cbn [with_classifier classifier].
  apply updates_zero_sums; try assumption.
  - rewrite Hty, Hfy. symmetry. exact (classifier_input_length _ _ Hx).
  - intros i Hli. rewrite Hout.
    assert (Hin : In (nth i (minibatch (train_set_y (store st))
                                       (iter mod n * batch_size)) 0%Z)
                     (snd (train_set data))).
    { rewrite Hty. apply (slice_incl _ (iter mod n * batch_size)
                            (iter mod n * batch_size + batch_size)).
      apply nth_In. now rewrite Hty in Hli. }
    specialize (Hlab _ Hin). lia.
Qed.

(** X16: on a well-formed dataset whose training labels are the classes
    0, ..., 9, the parameters a run ends with have biases that sum to zero
    and rows of [W] that each sum to zero, as the zero parameters it
    started from. *)
Theorem run_keeps_parameter_sums_at_zero
    (learning_rate : R) (n_iter : Z) (env : environment) (rep : report) :
  well_formed_mnist (mnist_pkl_gz env) ->
  labels_are_classes (mnist_pkl_gz env) ->
  sgd_optimization_mnist learning_rate n_iter env = ret rep ->
  zero_sums (classifier (store (final rep))).
Proof.
  intros Hwf Hlab H. apply sgd_final in H.
  change (train_set_x (initial_store (mnist_pkl_gz env)))
    with (fst (train_set (mnist_pkl_gz env))) in H.
  pose proof (n_batches_bounds (fst (train_set (mnist_pkl_gz env)))) as Hb.
  cbv zeta in Hb.
  assert (H0 : zero_sums (classifier (store (initial_state (mnist_pkl_gz env)))))
    by (apply init_zero_sums).
  destruct (Z.eq_dec (n_batches (fst (train_set (mnist_pkl_gz env)))) 0)
    as [E|E].
  - rewrite E, Z.mul_0_r in H. change (xrange 0) with (@nil Z) in H.
    cbn [for_loop] in H. apply ret_inj in H. now rewrite <- H.
  - apply (for_loop_keeps _ _
             (fun st => carries (mnist_pkl_gz env) st
                        /\ zero_sums (classifier (store st)))
             (fun iter st st' =>
                iteration_zero_sums learning_rate (mnist_pkl_gz env) iter st st'
                  Hwf Hlab ltac:(lia)) _ _ _ H).
    split; [apply initial_carries|exact H0].
Qed.

Lemma black_labels_are_classes : labels_are_classes black_mnist.
Proof.
  intros l Hl. unfold black_mnist, black_split in Hl.
  cbn [train_set snd] in Hl. apply repeat_spec in Hl. lia.
Qed.

Lemma run_keeps_parameter_sums_at_zero_witness :
  exists rep,
    sgd_optimization_mnist (13 / 100) 1 (black_env INR) = ret rep
    /\ zero_sums (classifier (store (final rep))).
Proof.
  destruct (sgd_total (13 / 100) 1 (black_env INR) black_well_formed)
    as [rep Hrep].
  exists rep. split; [exact Hrep|].
  exact (run_keeps_parameter_sums_at_zero (13 / 100) 1 (black_env INR) rep
           black_well_formed black_labels_are_classes Hrep).
Defined.

End SumTheorems.

(** ** A validation split smaller than one batch *)

Module NoValidationFacts.
Import Numpy NumpyFacts Spec ClassifierFacts SGD BatchFacts BatchTheorems
       LoopFacts CompiledFacts LoopMoreFacts RunFacts StoppingFacts.

Lemma this_validation_loss_no_batch (s : shared) :
  n_batches (valid_set_x s) = 0%Z -> this_validation_loss s = ret NaN.
Proof.
  intros H. unfold this_validation_loss. cbv zeta. rewrite H. reflexivity.
Qed.

Lemma validation_phase_no_batch (n_minibatches iter : Z) (st : loop_state) :
  n_batches (valid_set_x (store st)) = 0%Z ->
  validation_phase n_minibatches iter st = ret st.
Proof.
  intros H. unfold validation_phase.
  destruct (validation_due n_minibatches iter); [|reflexivity].
  rewrite (this_validation_loss_no_batch _ H), bind_ret. reflexivity.
Qed.

Lemma iteration_no_batch (learning_rate : R) (n_minibatches iter : Z)
    (st st' : loop_state) :
  n_batches (valid_set_x (store st)) = 0%Z ->
  iteration learning_rate n_minibatches iter st = ret st' ->
  valid_set_x (store st') = valid_set_x (store st)
  /\ best_validation_loss st' = best_validation_loss st
  /\ test_score st' = test_score st
  /\ patience st' = patience st.
Proof.
  intros Hn H. destruct (iteration_inv _ _ _ _ _ H) as [c [st1 [Ht Hv]]].
  destruct (train_phase_inv _ _ _ _ _ _ Ht) as [Hm [Hp [Hb Hs]]].
  destruct (train_model_inv _ _ _ _ _ Hm) as [x [_ [_ Hst]]].
  assert (Hvx : valid_set_x (store st1) = valid_set_x (store st))
    by (rewrite Hst; reflexivity).
  rewrite validation_phase_no_batch in Hv by (now rewrite Hvx).
  apply ret_inj in Hv. subst st'. auto.
Qed.

Lemma n_batches_small (set_x : matrix) :
  (length set_x < 500)%nat -> n_batches set_x = 0%Z.
Proof.
  intros H. pose proof (n_batches_bounds set_x) as Hb. cbv zeta in Hb.
  unfold batch_size in Hb. lia.
Qed.

Lemma unvalidated_well_formed : well_formed_mnist unvalidated_mnist.
Proof.
  destruct black_well_formed as [Htrain [_ [Htest Hlab]]].
  unfold well_formed_mnist, unvalidated_mnist.
  cbn [train_set valid_set test_set] in *.
  split; [exact Htrain|]. split; [|split; [exact Htest|exact Hlab]].
  split; [intros row []|reflexivity].
Qed.

End NoValidationFacts.

Module NoValidationTheorems.
Import Numpy NumpyFacts Spec ClassifierFacts SGD BatchFacts BatchTheorems
       LoopFacts CompiledFacts LoopMoreFacts RunFacts StoppingFacts
       NoValidationFacts.

(** X17: with fewer than 500 validation examples every validation loss
    is the mean of an empty list, which compares below nothing: a run that
    returns still has best validation loss [inf], test score 0 and
    patience 5000, and it has executed exactly the first
    [min (n_iter * n_minibatches) 5001] iterations. *)
Theorem small_validation_split_never_validates
    (learning_rate : R) (n_iter : Z) (env : environment) (rep : report) :
  (length (fst (valid_set (mnist_pkl_gz env))) < 500)%nat ->
  sgd_optimization_mnist learning_rate n_iter env = ret rep ->
  let data := mnist_pkl_gz env in
  let n_minibatches := n_batches (train_set_x (initial_store data)) in
  let N := (n_iter * n_minibatches)%Z in
  best_validation_loss (final rep) = Inf
  /\ test_score (final rep) = Num 0
  /\ patience (final rep) = 5000%Z
  /\ run_iterations learning_rate n_minibatches (xrange (Z.min N 5001))
       (initial_state data) = ret (final rep).
Proof.
  intros Hsmall H. cbv zeta. apply sgd_final in H.
  set (data := mnist_pkl_gz env) in *.
  set (n := n_batches (train_set_x (initial_store data))) in *.
  set (Q := fun st : loop_state =>
              valid_set_x (store st) = fst (valid_set data)
              /\ best_validation_loss st = Inf
              /\ test_score st = Num 0
              /\ patience st = 5000%Z).
  assert (HQ : forall iter st st',
             iteration learning_rate n iter st = ret st' -> Q st -> Q st').
  { intros iter st st' Hit [Hv [Hb [Ht Hp]]].
    destruct (iteration_no_batch _ _ _ _ _
                ltac:(rewrite Hv; now apply n_batches_small) Hit)
      as [Hv' [Hb' [Ht' Hp']]].
    unfold Q. rewrite Hv', Hb', Ht', Hp'. auto. }
  assert (HQ0 : Q (initial_state data)) by (unfold Q; cbn; auto).
  destruct (for_loop_keeps _ _ Q HQ _ _ _ H HQ0) as [_ [Hb [Ht Hp]]].
  split; [exact Hb|]. split; [exact Ht|]. split; [exact Hp|].
  destruct (for_loop_xrange _ _ _ _ _ H)
    as [[HN Hst]|[k [Hk [Hrun [Hend Hbefore]]]]].
  - rewrite xrange_nonpos by lia. now rewrite Hst.
  - assert (Hk5 : (k <= 5000)%Z).
    { destruct (Z.le_gt_cases k 5000) as [Hle|Hgt]; [exact Hle|].
      destruct (run_prefix _ _ 5001 (k + 1) _ _ ltac:(lia) Hrun) as [s5 Hs5].
      pose proof (Hbefore 5000%Z s5 ltac:(lia) Hs5) as Hlt.
      destruct (run_keeps _ _ Q HQ _ _ _ Hs5 HQ0) as [_ [_ [_ Hp5]]].
      lia. }
    replace (Z.min (n_iter * n) 5001) with (k + 1)%Z; [exact Hrun|].
    rewrite Hp in Hend. lia.
Qed.

Lemma small_validation_split_never_validates_witness :
  exists rep,
    sgd_optimization_mnist (13 / 100) 1
      {| mnist_pkl_gz := unvalidated_mnist; clock := INR |} = ret rep
    /\ best_validation_loss (final rep) = Inf.
Proof.
  destruct (sgd_total (13 / 100) 1
              {| mnist_pkl_gz := unvalidated_mnist; clock := INR |}
              unvalidated_well_formed) as [rep Hrep].
  exists rep. split; [exact Hrep|].
  apply (small_validation_split_never_validates (13 / 100) 1
           {| mnist_pkl_gz := unvalidated_mnist; clock := INR |} rep);
    [simpl; lia|exact Hrep].
Defined.

End NoValidationTheorems.

(** ** The first step from the zero parameters *)

Module FirstStepFacts.
Import Numpy NumpyFacts Spec ClassifierFacts ClassifierMoreFacts SGD
       LoopMoreFacts GradientFacts.






End FirstStepFacts.

Module FirstStepTheorems.
Import Numpy NumpyFacts Spec ClassifierFacts ClassifierMoreFacts SGD
       LoopMoreFacts GradientFacts FirstStepFacts.



End FirstStepTheorems.
